(** * Doctest coverage tool (bin/coverage_doctest.py): a shallow embedding

    The Python program walks a source tree, imports every module, and counts
    which classes and functions carry a doctest.  This file embeds the
    classification functions ([_is_indirect], [_get_arg_list],
    [process_function], [process_class]), the module scan ([coverage]),
    the tree scan ([go]) and the main loop, and states the documented
    properties of the tool over that embedding.

    Effects are kept as the program has them: a raised exception is the
    [Raise] outcome of [Res]; the lines written by [print] are collected,
    in order, next to the outcome ([IO]); the lists that the program
    mutates in place are threaded through as explicit state. *)

From Stdlib Require Import String Ascii List Arith Bool Lia ZArith.
From Stdlib Require Import DecimalString Permutation Sorted.
Import ListNotations.
Open Scope list_scope.
Open Scope string_scope.

(** ** Strings, as Python uses them here *)

Module PyStr.

(** [sub in s]: substring test. *)
Fixpoint contains (sub s : string) : bool :=
  if String.prefix sub s then true
  else match s with
       | EmptyString => false
       | String _ s' => contains sub s'
       end.

(** [s.startswith(p)] *)
Definition startswith (s p : string) : bool := String.prefix p s.

(** [s.endswith(p)] *)
Fixpoint endswith (s p : string) : bool :=
  if String.eqb s p then true
  else match s with
       | EmptyString => false
       | String _ s' => endswith s' p
       end.

(** [sep.join(l)] *)
Fixpoint join (sep : string) (l : list string) : string :=
  match l with
  | [] => ""
  | [x] => x
  | x :: l' => x ++ sep ++ join sep l'
  end.

(** [s * n] *)
Fixpoint repeat (s : string) (n : nat) : string :=
  match n with
  | O => ""
  | S n' => s ++ repeat s n'
  end.

(** [x[:n]] *)
Definition take (n : nat) (s : string) : string := String.substring 0 n s.

(** ["%d" % n] and ["%s" % n] for a non-negative integer. *)
Definition dec (n : nat) : string := NilEmpty.string_of_uint (Nat.to_uint n).

Definition nl : string := String (ascii_of_nat 10) "".
Definition esc : string := String (ascii_of_nat 27) "".
Definition dquote : string := String (ascii_of_nat 34) "".

End PyStr.

(** ** Outcomes *)

Inductive exn :=
| TypeError
| IndexError
| AttributeError
| KeyboardInterrupt
| SystemExit (code : Z).

Inductive Res (A : Type) :=
| Ok (a : A)
| Raise (e : exn).
Arguments Ok {A} a.
Arguments Raise {A} e.

Definition rbind {A B} (m : Res A) (f : A -> Res B) : Res B :=
  match m with
  | Ok a => f a
  | Raise e => Raise e
  end.

Declare Scope res_scope.
Delimit Scope res_scope with res.
Notation "x <- m ;; k" := (rbind m (fun x => k))
  (at level 61, m at next level, right associativity) : res_scope.
Notation "' p <- m ;; k" := (rbind m (fun x => match x with p => k end))
  (at level 61, p pattern, m at next level, right associativity) : res_scope.
Open Scope res_scope.

(** ** Python values met in a [__doc__] attribute

    [__doc__] is [None] or a string for almost every object, but Python
    lets a program store any object there; an integer stands for the
    values that are neither. *)

Inductive pyval :=
| PyNone
| PyString (s : string)
| PyInt (z : Z).

(** Truth value of a Python object ([if v], [not v]). *)
Definition py_truthy (v : pyval) : bool :=
  match v with
  | PyNone => false
  | PyString s => negb (String.eqb s "")
  | PyInt z => negb (Z.eqb z 0)
  end.

(** [sub in v] for a string [sub]: a substring test when [v] is a string,
    [TypeError] ("argument of type ... is not iterable") otherwise. *)
Definition py_in (sub : string) (v : pyval) : Res bool :=
  match v with
  | PyString s => Ok (PyStr.contains sub s)
  | PyNone | PyInt _ => Raise TypeError
  end.

(** [l[i]] with Python's negative indices. *)
Definition py_getitem {A} (l : list A) (i : Z) : Res A :=
  let n := Z.of_nat (length l) in
  let k := if Z.ltb i 0 then Z.add i n else i in
  if Z.ltb k 0 then Raise IndexError
  else match nth_error l (Z.to_nat k) with
       | Some a => Ok a
       | None => Raise IndexError
       end.

(** [l[i] = v] for [i >= 0]. *)
Fixpoint py_setitem {A} (l : list A) (i : nat) (v : A) : Res (list A) :=
  match l, i with
  | [], _ => Raise IndexError
  | _ :: l', O => Ok (v :: l')
  | a :: l', S i' => l'' <- py_setitem l' i' v ;; Ok (a :: l'')
  end.

(** ** Introspected objects *)

(** What [inspect.getargspec] returns.  Defaults are kept as their [str];
    an absent [defaults], [varargs] or [keywords] is the empty list or
    [None]. *)
Record ArgSpec := {
  args : list string;
  defaults : list string;
  varargs : option string;
  keywords : option string
}.

(** The attributes the tool reads from any object. *)
Record ObjAttrs := {
  (** [obj.__doc__] *)
  attr_doc : pyval;
  (** [inspect.getmodule(obj).__name__]; [None] when [getmodule] finds no
      module. *)
  attr_module : option string;
  (** [inspect.getsourcelines(obj)]: the source lines and the line number;
      [None] when it raises [IOError]. *)
  attr_source : option (list string * nat)
}.

#[warnings="-register-all"]
Inductive pyobj :=
| PyFunction (a : ObjAttrs) (spec : ArgSpec)
| PyMethod (a : ObjAttrs) (spec : ArgSpec)
| PyClass (a : ObjAttrs) (dict : list (string * pyobj))
| PyOther (a : ObjAttrs).

Definition attrs (o : pyobj) : ObjAttrs :=
  match o with
  | PyFunction a _ | PyMethod a _ | PyClass a _ | PyOther a => a
  end.

Definition isfunction (o : pyobj) : bool :=
  match o with PyFunction _ _ => true | _ => false end.
Definition ismethod (o : pyobj) : bool :=
  match o with PyMethod _ _ => true | _ => false end.
Definition isclass (o : pyobj) : bool :=
  match o with PyClass _ _ => true | _ => false end.

Fixpoint assoc {A} (k : string) (l : list (string * A)) : option A :=
  match l with
  | [] => None
  | (k', v) :: l' => if String.eqb k k' then Some v else assoc k l'
  end.

(** [getattr(b_obj, name)] on a class; the tool only uses it with names
    taken from the class's [__dict__]. *)
Definition getattr (b_obj : pyobj) (name : string) : Res pyobj :=
  match b_obj with
  | PyClass _ dict =>
      match assoc name dict with
      | Some o => Ok o
      | None => Raise AttributeError
      end
  | _ => Raise AttributeError
  end.

(** [inspect.getargspec(fobj)]: a [TypeError] for what is not a Python
    function. *)
Definition getargspec (fobj : pyobj) : Res ArgSpec :=
  match fobj with
  | PyFunction _ spec | PyMethod _ spec => Ok spec
  | _ => Raise TypeError
  end.

(** [obj_mod and obj_mod.__name__ == module_path] *)
Definition in_module (o : pyobj) (module_path : string) : bool :=
  match attr_module (attrs o) with
  | Some n => String.eqb n module_path
  | None => false
  end.

(** ** Report labels

    A reported member is labelled ["LINE %d: %s" % (line_no, full_name)].
    The label is kept as its two fields; [label_string] is the string the
    program builds, and the sort key of [coverage]
    ([int(x.split()[1][:-1])]) reads [line_no] back from it. *)
Record label := { line_no : nat; full_name : string }.

Definition label_string (l : label) : string :=
  "LINE " ++ PyStr.dec (line_no l) ++ ": " ++ full_name l.

(** The five lists kept for classes ([c_sk], [c_md], [c_mdt], [c_idt],
    [c_has_doctest]) and for functions ([f_sk], ...). *)
Record Lists := {
  sk : list string;
  md : list label;
  mdt : list label;
  idt : list label;
  has_doctest : list label
}.

Definition no_lists : Lists := Build_Lists [] [] [] [] [].

Definition append_sk (L : Lists) (x : string) : Lists :=
  Build_Lists (sk L ++ [x]) (md L) (mdt L) (idt L) (has_doctest L).
Definition append_md (L : Lists) (x : label) : Lists :=
  Build_Lists (sk L) (md L ++ [x]) (mdt L) (idt L) (has_doctest L).
Definition append_mdt (L : Lists) (x : label) : Lists :=
  Build_Lists (sk L) (md L) (mdt L ++ [x]) (idt L) (has_doctest L).
Definition append_idt (L : Lists) (x : label) : Lists :=
  Build_Lists (sk L) (md L) (mdt L) (idt L ++ [x]) (has_doctest L).
Definition append_has_doctest (L : Lists) (x : label) : Lists :=
  Build_Lists (sk L) (md L) (mdt L) (idt L) (has_doctest L ++ [x]).

(** ** Classification *)

(** [_is_indirect(member, doc)] *)
Definition _is_indirect (member : string) (doc : pyval) : Res bool :=
  d <- py_in member doc ;;
  e <- py_in "indirect doctest" doc ;;
  if negb d && negb e then Ok true else Ok false.

(** The loop of [_get_arg_list] that adds the defaults:
    [for i in range(len(defaults)):
       arg_list[i] = str(arg_list[i]) + '=' + str(defaults[-i])],
    run for the indices in [idxs]. *)
Fixpoint add_defaults (dflts : list string) (idxs : list nat)
    (arg_list : list string) : Res (list string) :=
  match idxs with
  | [] => Ok arg_list
  | i :: idxs' =>
      a <- py_getitem arg_list (Z.of_nat i) ;;
      d <- py_getitem dflts (Z.opp (Z.of_nat i)) ;;
      arg_list' <- py_setitem arg_list i (a ++ "=" ++ d) ;;
      add_defaults dflts idxs' arg_list'
  end.

(** [if argspec.varargs:], [if underline:]: [None] and the empty string
    are false. *)
Definition truthy_name (o : option string) : option string :=
  match o with
  | Some s => if String.eqb s "" then None else Some s
  | None => None
  end.

(** [_get_arg_list(name, fobj)] *)
Definition _get_arg_list (name : string) (fobj : pyobj) : Res string :=
  let trunc := 20 in
  argspec <- getargspec fobj ;;
  let arg_list := args argspec in
  let arg_list := rev arg_list in
  arg_list <- (match defaults argspec with
               | [] => Ok arg_list
               | _ => add_defaults (defaults argspec)
                        (seq 0 (length (defaults argspec))) arg_list
               end) ;;
  let arg_list := rev arg_list in
  let arg_list := match truthy_name (varargs argspec) with
                  | Some v => (arg_list ++ [v])%list
                  | None => arg_list
                  end in
  let arg_list := match truthy_name (keywords argspec) with
                  | Some k => (arg_list ++ [k])%list
                  | None => arg_list
                  end in
  let arg_list := map (PyStr.take trunc) arg_list in
  Ok (name ++ "(" ++ PyStr.join ", " arg_list ++ ")").

(** The names [coverage] never looks at. *)
Definition skip_members : list string := ["__abstractmethods__"].

Definition name_in (name : string) (l : list string) : bool :=
  existsb (String.eqb name) l.

(** [process_function(name, c_name, b_obj, mod_path, f_sk, f_md, f_mdt,
    f_idt, f_has_doctest, sk_list)]: the returned pair
    [(f_doctest, function)] together with the lists after the call. *)
Definition process_function (name c_name : string) (b_obj : pyobj)
    (mod_path : string) (F : Lists) (sk_list : list string)
    : Res (bool * bool * Lists) :=
  if name_in name sk_list then Ok (false, false, F)
  else
    obj <- (if isclass b_obj then getattr b_obj name else Ok b_obj) ;;
    full_name <- (if isclass b_obj
                  then _get_arg_list (c_name ++ "." ++ name) obj
                  else _get_arg_list name obj) ;;
    '(add_md, add_mdt, add_idt, f_doctest, function, F) <-
      (if PyStr.startswith name "_"
       then Ok (false, false, false, false, false, append_sk F full_name)
       else
         '(add_md, add_mdt, add_idt, f_doctest) <-
           (let doc := attr_doc (attrs obj) in
            if negb (py_truthy doc) then Ok (true, false, false, false)
            else
              has_marker <- py_in ">>>" doc ;;
              if negb has_marker then Ok (false, true, false, false)
              else
                indirect <- _is_indirect name doc ;;
                if indirect then Ok (false, false, true, false)
                else Ok (false, false, false, true)) ;;
         Ok (add_md, add_mdt, add_idt, f_doctest, true, F)) ;;
    if add_md || add_mdt || add_idt then
      match attr_source (attrs obj) with
      | None => Ok (false, false, F)
      | Some (_, line_no) =>
          let full_name := Build_label line_no full_name in
          let F := if add_md then append_md F full_name
                   else if add_mdt then append_mdt F full_name
                   else if add_idt then append_idt F full_name
                   else F in
          Ok (f_doctest, function, F)
      end
    else Ok (f_doctest, function, F).

(** [process_class(c_name, obj, c_sk, c_md, c_mdt, c_idt, c_has_doctest)]:
    the returned triple [(c_dt, c, source)] and the lists after the call. *)
Definition process_class (c_name : string) (obj : pyobj) (C : Lists)
    : Res (bool * bool * option (list string) * Lists) :=
  if PyStr.startswith c_name "_"
  then Ok (false, false, None, append_sk C c_name)
  else
    match attr_source (attrs obj) with
    | None => Ok (false, false, None, C)
    | Some (source, line_no) =>
        let full_name := Build_label line_no c_name in
        let doc := attr_doc (attrs obj) in
        if negb (py_truthy doc)
        then Ok (false, true, Some source, append_md C full_name)
        else
          has_marker <- py_in ">>>" doc ;;
          if negb has_marker
          then Ok (false, true, Some source, append_mdt C full_name)
          else
            indirect <- _is_indirect c_name doc ;;
            if indirect
            then Ok (false, true, Some source, append_idt C full_name)
            else Ok (true, true, Some source, append_has_doctest C full_name)
    end.

(** ** Printing *)

(** The program's output: the lines written so far, and how the
    computation ended. *)
Definition IO (A : Type) : Type := (list string * Res A)%type.

Definition ret {A} (a : A) : IO A := ([], Ok a).

Definition bind {A B} (m : IO A) (f : A -> IO B) : IO B :=
  match m with
  | (out, Ok a) => let (out', r) := f a in ((out ++ out')%list, r)
  | (out, Raise e) => (out, Raise e)
  end.

Definition print (line : string) : IO unit := ([line], Ok tt).

(** The colour table, [colors[name]]; only these two are used. *)
Definition colors_Red : string := "0;31".
Definition colors_Green : string := "0;32".
Definition c_normal : string := PyStr.esc ++ "[0m".
(** [c_color % code] *)
Definition c_color (code : string) : string :=
  PyStr.esc ++ "[" ++ code ++ "m".

(** [print_header(name, underline)] *)
Definition print_header (name : string) (underline : option string)
    : list string :=
  ([""; name] ++
   match truthy_name underline with
   | Some u => [PyStr.repeat u (String.length name)]
   | None => []
   end)%list.

(** One block of the verbose report: the header and the labels. *)
Definition print_labels (title : string) (l : list label) : list string :=
  match l with
  | [] => []
  | _ => (print_header title (Some "-") ++
          map (fun md => ("  * " ++ label_string md)%string) l)%list
  end.

Definition indirect_hint : string :=
  PyStr.nl ++ "    Use " ++ PyStr.dquote ++ "# indirect doctest" ++
  PyStr.dquote ++ " in the docstring to supress this warning".

Definition print_category (count : nat) (none_found : string)
    (l_md l_mdt l_idt : list label) : list string :=
  if Nat.eqb count 0 then print_header none_found None
  else
    (print_labels "Missing docstrings" l_md ++
     print_labels "Missing doctests" l_mdt ++
     match l_idt with
     | [] => []
     | _ => print_labels "Indirect doctests" l_idt ++ [indirect_hint]
     end)%list.

(** The score text ["%s%% (%s of %s)"], in red below 100 and in green at
    100 unless [no_color]; [print_coverage] and the main loop build it
    the same way. *)
Definition score_string (score total_doctests total_members : nat)
    (no_color : bool) : string :=
  let plain := PyStr.dec score ++ "% (" ++ PyStr.dec total_doctests ++
               " of " ++ PyStr.dec total_members ++ ")" in
  if no_color then plain
  else if Nat.ltb score 100 then c_color colors_Red ++ plain ++ c_normal
  else c_color colors_Green ++ plain ++ c_normal.

(** [print_coverage(module_path, c, c_md, c_mdt, c_idt, f, f_md, f_mdt,
    f_idt, score, total_doctests, total_members, verbose, no_color)]:
    the lines it prints. *)
Definition print_coverage (module_path : string)
    (c : nat) (c_md c_mdt c_idt : list label)
    (f : nat) (f_md f_mdt f_idt : list label)
    (score total_doctests total_members : nat) (verbose no_color : bool)
    : list string :=
  let score_string :=
    score_string score total_doctests total_members no_color in
  let rule := PyStr.repeat "-" 70 in
  let top_rule := PyStr.nl ++ rule in
  let summary := module_path ++ ": " ++ score_string in
  let banner := "SCORE: " ++ score_string in
  ((if verbose then [top_rule; module_path; rule] else [summary]) ++
   (if verbose then
      print_header "CLASSES" (Some "*") ++
      print_category c "No classes found!" c_md c_mdt c_idt ++
      print_header "FUNCTIONS" (Some "*") ++
      print_category f "No functions found!" f_md f_mdt f_idt
    else []) ++
   (if verbose then [top_rule; banner; rule] else []))%list.

(** ** The module scan *)

(** [sorted(l, key=line number)]: a stable sort. *)
Fixpoint insert_label (x : label) (l : list label) : list label :=
  match l with
  | [] => [x]
  | y :: l' => if Nat.leb (line_no x) (line_no y) then x :: l
               else y :: insert_label x l'
  end.

Definition sorted (l : list label) : list label :=
  fold_right insert_label [] l.

(** The local variables of [coverage]. *)
Record CovState := {
  c_lists : Lists;
  classes : nat;
  c_doctests : nat;
  f_lists : Lists;
  functions : nat;
  f_doctests : nat
}.

Definition init_state : CovState :=
  Build_CovState no_lists 0 0 no_lists 0 0.

Definition set_c_lists (st : CovState) (C : Lists) : CovState :=
  Build_CovState C (classes st) (c_doctests st)
                 (f_lists st) (functions st) (f_doctests st).

(** The effect of a [process_function] call on the function counters:
    [if f: functions += 1] and [if f_dt: f_doctests += 1]. *)
Definition count_function (st : CovState) (f_dt f : bool) (F : Lists)
    : CovState :=
  Build_CovState (c_lists st) (classes st) (c_doctests st) F
                 (if f then functions st + 1 else functions st)
                 (if f_dt then f_doctests st + 1 else f_doctests st).

(** [classes += 1] and [if c_dt: c_doctests += 1]. *)
Definition count_class (st : CovState) (c_dt : bool) (C : Lists)
    : CovState :=
  Build_CovState C (classes st + 1)
                 (if c_dt then c_doctests st + 1 else c_doctests st)
                 (f_lists st) (functions st) (f_doctests st).

(** A for loop whose body may raise. *)
Fixpoint for_each {S X} (body : S -> X -> Res S) (l : list X) (st : S)
    : Res S :=
  match l with
  | [] => Ok st
  | x :: l' => st' <- body st x ;; for_each body l' st'
  end.

(** The body of [for f_name in obj.__dict__] in [coverage]; [member] is
    the class's name, [obj] the class, [source] its source lines. *)
Definition method_step (module_path member : string) (obj : pyobj)
    (source : option (list string)) (st : CovState) (f_name : string)
    : Res CovState :=
  if name_in f_name skip_members || PyStr.startswith f_name "_" then Ok st
  else
    joined <- (match source with
               | Some src => Ok (PyStr.join " " src)
               | None => Raise TypeError
               end) ;;
    if negb (PyStr.contains ("def " ++ f_name) joined) then Ok st
    else
      f_obj <- getattr obj f_name ;;
      if negb (in_module f_obj module_path) then Ok st
      else if isfunction f_obj || ismethod f_obj then
        '(f_dt, f, F) <- process_function f_name member obj module_path
                           (f_lists st) skip_members ;;
        Ok (count_function st f_dt f F)
      else Ok st.

(** [obj.__dict__], iterated: the names. *)
Definition dict_names (obj : pyobj) : list string :=
  match obj with
  | PyClass _ dict => map fst dict
  | _ => []
  end.

(** The body of [for member in m_members] in [coverage]; [obj] is
    [getattr(m, member)]. *)
Definition member_step (module_path : string) (st : CovState)
    (entry : string * pyobj) : Res CovState :=
  let (member, obj) := entry in
  if name_in member skip_members then Ok st
  else if negb (in_module obj module_path) then Ok st
  else if isfunction obj || ismethod obj then
    '(f_dt, f, F) <- process_function member "" obj module_path
                       (f_lists st) skip_members ;;
    Ok (count_function st f_dt f F)
  else if isclass obj then
    '(c_dt, c, source, C) <- process_class member obj (c_lists st) ;;
    if negb c then Ok (set_c_lists st C)
    else
      let st := count_class st c_dt C in
      for_each (method_step module_path member obj source)
               (dict_names obj) st
  else Ok st.

(** A loaded module: the names of [dir(m)], in that order, each with
    [getattr(m, name)]. *)
Definition pymodule : Type := list (string * pyobj).

(** The outcomes of [__import__(module_path)] followed by
    [sys.modules[module_path]]: the module; an [Exception], of which
    [repr] gives the text; or one of the exceptions that are not an
    [Exception], which [except Exception] lets through: [SystemExit],
    when the code of the module calls [sys.exit] ([code] is the exit
    status its argument stands for), and [KeyboardInterrupt]. *)
Inductive ImportResult :=
| Imported (m : pymodule)
| ImportFailed (repr_a : string)
| ImportExit (code : Z)
| ImportInterrupted.

(** [int(100 * float(total_doctests) / total_members)], and 100 when
    there is no member.  For counts below 2^46 the rounding of the
    double quotient cannot reach the next integer, so its truncation is
    the integer quotient. *)
Definition score_of (total_doctests total_members : nat) : nat :=
  if Nat.eqb total_members 0 then 100
  else (100 * total_doctests) / total_members.

(** The loop of [coverage] over the members of a module. *)
Definition scan_members (module_path : string) (m : pymodule)
    : Res CovState :=
  for_each (member_step module_path) m init_state.

(** ** The file system

    What [os.path.isdir], [os.listdir] and [os.path.exists] see at a
    path: a directory with its entries (name and what the name leads
    to), a file, or nothing.  [Missing] inside a listing is a name that
    [os.listdir] returns and for which [os.path.exists] is false: a
    symbolic link whose target is gone. *)
#[warnings="-register-all"]
Inductive fsnode :=
| Missing
| File
| Dir (entries : list (string * fsnode)).

(** [os.path.join(a, b)] for a relative [b]. *)
Definition path_join (a b : string) : string :=
  if String.eqb a "" then b
  else if PyStr.endswith a "/" then a ++ b
  else a ++ "/" ++ b.

(** [if len(args) == 0: args = [os.path.join(sympy_top, 'sympy')]] *)
Definition default_args (sympy_top : string) (args : list string)
    : list string :=
  match args with
  | [] => [path_join sympy_top "sympy"]
  | _ => args
  end.

Section Environment.

(** What importing a module path gives. *)
Variable import_module : string -> ImportResult.

(** [get_mod_name(path, base)]: the dotted module name of a file.  It is
    computed with [os.path] from the working directory; only its value is
    used, as the name to import and to print. *)
Variable get_mod_name : string -> string -> string.

(** [coverage(module_path, verbose, no_color)] *)
Definition coverage (module_path : string) (verbose no_color : bool)
    : IO (nat * nat) :=
  match import_module module_path with
  | ImportFailed a =>
      bind (print (module_path ++ " could not be loaded due to " ++ a ++ "."))
           (fun _ => ret (0, 0))
  | ImportExit code => ([], Raise (SystemExit code))
  | ImportInterrupted => ([], Raise KeyboardInterrupt)
  | Imported m =>
      match scan_members module_path m with
      | Raise e => ([], Raise e)
      | Ok st =>
          let total_doctests := c_doctests st + f_doctests st in
          let total_members := classes st + functions st in
          let score := score_of total_doctests total_members in
          let c_md := sorted (md (c_lists st)) in
          let c_mdt := sorted (mdt (c_lists st)) in
          let c_idt := sorted (idt (c_lists st)) in
          let f_md := sorted (md (f_lists st)) in
          let f_mdt := sorted (mdt (f_lists st)) in
          let f_idt := sorted (idt (f_lists st)) in
          (print_coverage module_path (classes st) c_md c_mdt c_idt
             (functions st) f_md f_mdt f_idt score total_doctests
             total_members verbose no_color,
           Ok (total_doctests, total_members))
      end
  end.

(** *** The tree scan *)

(** [not (file.endswith('.py') or file.endswith('.pyx')) or
     file.endswith('__init__.py') or
     not exact and ('test_' in file or 'bench_' in file)] *)
Definition filtered_out (file : string) (exact : bool) : bool :=
  negb (PyStr.endswith file ".py" || PyStr.endswith file ".pyx")
  || PyStr.endswith file "__init__.py"
  || (negb exact
      && (PyStr.contains "test_" file || PyStr.contains "bench_" file)).

(** [go(sympy_top, file, verbose, no_color, exact)]; [node] is what the
    file system has at [file]. *)
Fixpoint go (sympy_top file : string) (node : fsnode)
    (verbose no_color exact : bool) {struct node} : IO (nat * nat) :=
  match node with
  | Dir entries =>
      (fix loop (es : list (string * fsnode)) (acc : nat * nat)
           {struct es} : IO (nat * nat) :=
         match es with
         | [] => ret acc
         | (F, child) :: es' =>
             bind (go sympy_top (file ++ "/" ++ F) child
                      verbose no_color false)
                  (fun r => loop es' (fst acc + fst r, snd acc + snd r))
         end) entries (0, 0)
  | _ =>
      if filtered_out file exact then ret (0, 0)
      else
        match node with
        | File => coverage (get_mod_name file sympy_top) verbose no_color
        | _ =>
            bind (print ("File " ++ file ++ " does not exist."))
                 (fun _ => ([], Raise (SystemExit 1)))
        end
  end.

(** The loop of [go] over a directory listing, with the running sums. *)
Fixpoint go_entries (sympy_top file : string)
    (es : list (string * fsnode)) (verbose no_color : bool)
    (acc : nat * nat) : IO (nat * nat) :=
  match es with
  | [] => ret acc
  | (F, child) :: es' =>
      bind (go sympy_top (file ++ "/" ++ F) child verbose no_color false)
           (fun r => go_entries sympy_top file es' verbose no_color
                       (fst acc + fst r, snd acc + snd r))
  end.

(** *** The main loop *)

(** [os.path.normpath] *)
Variable normpath : string -> string.

(** What the file system has at a path named on the command line. *)
Variable fs : string -> fsnode.

(** The body of [for file in args]. *)
Definition main_file (sympy_top : string) (verbose no_color : bool)
    (file : string) : IO unit :=
  let file := normpath file in
  let rule := PyStr.repeat "=" 70 in
  bind (print ("DOCTEST COVERAGE for " ++ file)) (fun _ =>
  bind (print rule) (fun _ =>
  bind (print "") (fun _ =>
  bind (go sympy_top file (fs file) verbose no_color true) (fun r =>
  let (doctests, num_functions) := r in
  let score := score_of doctests num_functions in
  bind (print "") (fun _ =>
  bind (print rule) (fun _ =>
  bind (print ("TOTAL SCORE for " ++ get_mod_name file sympy_top ++ ": " ++
               score_string score doctests num_functions no_color))
       (fun _ =>
  print ""))))))).

Fixpoint main_loop (sympy_top : string) (verbose no_color : bool)
    (files : list string) : IO unit :=
  match files with
  | [] => ret tt
  | file :: files' =>
      bind (main_file sympy_top verbose no_color file)
           (fun _ => main_loop sympy_top verbose no_color files')
  end.

(** The script body after option parsing: [args] are the paths given on
    the command line. *)
Definition main (sympy_top : string) (verbose no_color : bool)
    (args : list string) : IO unit :=
  main_loop sympy_top verbose no_color (default_args sympy_top args).

End Environment.

(** The exit status of the process: 0 after a normal end, the code given
    to [sys.exit], 1 after an uncaught exception ([KeyboardInterrupt]
    included). *)
Definition exit_code {A} (r : Res A) : Z :=
  match r with
  | Ok _ => 0%Z
  | Raise (SystemExit code) => code
  | Raise _ => 1%Z
  end.

(** ** Module names of files

    [get_mod_name] works on the path that [os.path.relpath] returns, with
    [os.path.splitext] and [os.path.split]; both are given here as
    [posixpath] has them. *)

Module Paths.

(** [c in s] for a character. *)
Fixpoint occurs (c : ascii) (s : string) : bool :=
  match s with
  | EmptyString => false
  | String a s' => Ascii.eqb a c || occurs c s'
  end.

(** [(p[:i], p[i:])] for [i = p.rfind(c) + 1]: the part of [p] up to and
    including the last [c], and what follows it; the first part is empty
    when [c] does not occur. *)
Fixpoint rpartition (c : ascii) (p : string) : string * string :=
  match p with
  | EmptyString => ("", "")
  | String a p' =>
      match rpartition c p' with
      | (EmptyString, t) =>
          if Ascii.eqb a c then (String a "", t) else ("", String a t)
      | (h, t) => (String a h, t)
      end
  end.

(** [s.rstrip('/')] *)
Fixpoint rstrip_sep (s : string) : string :=
  match s with
  | EmptyString => ""
  | String a s' =>
      match rstrip_sep s' with
      | EmptyString => if Ascii.eqb a "/" then "" else String a ""
      | r => String a r
      end
  end.

(** [os.path.split(p)]:
    [i = p.rfind('/') + 1; head, tail = p[:i], p[i:];
     if head and head != '/'*len(head): head = head.rstrip('/')] *)
Definition split (p : string) : string * string :=
  let (head, tail) := rpartition "/" p in
  let head :=
    if negb (String.eqb head "")
       && negb (String.eqb head (PyStr.repeat "/" (String.length head)))
    then rstrip_sep head else head in
  (head, tail).

(** [s[:-1]] *)
Fixpoint drop_last (s : string) : string :=
  match s with
  | EmptyString => ""
  | String a EmptyString => ""
  | String a s' => String a (drop_last s')
  end.

Fixpoint all_dots (s : string) : bool :=
  match s with
  | EmptyString => true
  | String a s' => Ascii.eqb a "." && all_dots s'
  end.

(** [os.path.splitext(p)]: the path is cut before its last dot when that
    dot comes after the last [/] and the file name has a character other
    than a dot before it. *)
Definition splitext (p : string) : string * string :=
  match rpartition "." p with
  | (EmptyString, _) => (p, "")
  | (h, t) =>
      if occurs "/" t then (p, "")
      else
        let root := drop_last h in
        if all_dots (snd (rpartition "/" root)) then (p, "")
        else (root, "." ++ t)
  end.

Section GetModName.

(** [os.path.relpath], which depends on the working directory. *)
Variable relpath : string -> string -> string.

(** The loop of [get_mod_name]:
    [while h or t: if t: file_module = t + '.' + file_module;
                   h, t = os.path.split(h)],
    run for at most [fuel] rounds; [None] when they do not suffice. *)
Fixpoint mod_name_loop (fuel : nat) (h t file_module : string)
    : option string :=
  if negb (String.eqb h "") || negb (String.eqb t "") then
    match fuel with
    | O => None
    | S fuel' =>
        let file_module :=
          if negb (String.eqb t "") then t ++ "." ++ file_module
          else file_module in
        let (h, t) := split h in
        mod_name_loop fuel' h t file_module
    end
  else Some file_module.

(** [get_mod_name(path, base)] *)
Definition get_mod_name (fuel : nat) (path base : string) : option string :=
  let rel_path := relpath path base in
  let (rel_path, ign) := splitext rel_path in
  let file_module := "" in
  let (h, t) := split rel_path in
  match mod_name_loop fuel h t file_module with
  | Some file_module => Some (drop_last file_module)
  | None => None
  end.

End GetModName.

(** A path that does not begin with [/]. *)
Definition relative (p : string) : Prop := PyStr.startswith p "/" = false.

(** A name without [/] and without dot, such as a Python identifier. *)
Definition plain (c : string) : Prop :=
  c <> "" /\ occurs "/" c = false /\ occurs "." c = false.

(** Nothing, or a dot and a suffix without dot and without [/]. *)
Definition extension (ext : string) : Prop :=
  ext = "" \/
  exists e,
    ext = String "." e /\ occurs "." e = false /\ occurs "/" e = false.

End Paths.

(** [os.path.relpath] for a path already relative to the base. *)
Definition sample_relpath (path base : string) : string := path.

(** * Vocabulary of the statements *)





(** What [process_function] does once the parameter string [full_name]
    of [obj] is known. *)
Definition after_label (name : string) (obj : pyobj) (full_name : string)
    (F : Lists) : Res (bool * bool * Lists) :=
  '(add_md, add_mdt, add_idt, f_doctest, function, F) <-
    (if PyStr.startswith name "_"
     then Ok (false, false, false, false, false, append_sk F full_name)
     else
       '(add_md, add_mdt, add_idt, f_doctest) <-
         (let doc := attr_doc (attrs obj) in
          if negb (py_truthy doc) then Ok (true, false, false, false)
          else
            has_marker <- py_in ">>>" doc ;;
            if negb has_marker then Ok (false, true, false, false)
            else
              indirect <- _is_indirect name doc ;;
              if indirect then Ok (false, false, true, false)
              else Ok (false, false, false, true)) ;;
       Ok (add_md, add_mdt, add_idt, f_doctest, true, F)) ;;
  if add_md || add_mdt || add_idt then
    match attr_source (attrs obj) with
    | None => Ok (false, false, F)
    | Some (_, line_no) =>
        let full_name := Build_label line_no full_name in
        let F := if add_md then append_md F full_name
                 else if add_mdt then append_mdt F full_name
                 else if add_idt then append_idt F full_name
                 else F in
        Ok (f_doctest, function, F)
    end
  else Ok (f_doctest, function, F).






(** The doctest counters never pass the member counters. *)
Definition counts_ok (st : CovState) : Prop :=
  c_doctests st <= classes st /\ f_doctests st <= functions st.




(** The second component of every listed pair, summed, and the first. *)
Definition sum_fst (rs : list (nat * nat)) : nat := list_sum (map fst rs).
Definition sum_snd (rs : list (nat * nat)) : nat := list_sum (map snd rs).

(** Every name of every listing leads to something that exists. *)
Fixpoint listed_exist (node : fsnode) : bool :=
  match node with
  | Dir entries =>
      (fix all (es : list (string * fsnode)) : bool :=
         match es with
         | [] => true
         | (_, Missing) :: _ => false
         | (_, child) :: es' => listed_exist child && all es'
         end) entries
  | _ => true
  end.

(** The number of labels in the three lists of reported members. *)
Definition reported_count (L : Lists) : nat :=
  length (md L) + length (mdt L) + length (idt L).

(** Every counted member is accounted for: a counted class is doctested
    or in one of the three report lists of classes, the doctested classes
    are those of [c_has_doctest], a counted function is doctested or in
    one of the three report lists of functions, and [f_has_doctest] is
    never filled. *)
Definition accounted (st : CovState) : Prop :=
  classes st = c_doctests st + reported_count (c_lists st) /\
  c_doctests st = length (has_doctest (c_lists st)) /\
  functions st = f_doctests st + reported_count (f_lists st) /\
  has_doctest (f_lists st) = [].

(** The order of the labels by line number. *)
Definition line_le (x y : label) : Prop := line_no x <= line_no y.

(** The labels of one line, in the order of the list. *)
Definition on_line (k : nat) (l : list label) : list label :=
  filter (fun x => Nat.eqb (line_no x) k) l.






(** The files that a tree scan hands to [coverage], in the order of the
    scan: the files of the tree whose path passes the file-name filter,
    [exact] being false below a directory. *)
Fixpoint scanned_files (file : string) (node : fsnode) (exact : bool)
    : list string :=
  match node with
  | Dir entries =>
      (fix all (es : list (string * fsnode)) : list string :=
         match es with
         | [] => []
         | (F, child) :: es' =>
             (scanned_files (file ++ "/" ++ F) child false ++ all es')%list
         end) entries
  | File => if filtered_out file exact then [] else [file]
  | Missing => []
  end.

(** No escape character in a string. *)
Definition esc_free (s : string) : Prop :=
  Paths.occurs (ascii_of_nat 27) s = false.

(** The outcome is not a call of [sys.exit]. *)
Definition no_exit {A} (r : Res A) : Prop :=
  forall code, r <> Raise (SystemExit code).



(** * A sample project *)

Definition sample_attrs (doc : pyval) (source : option (list string * nat))
    : ObjAttrs :=
  Build_ObjAttrs doc (Some "pkg.mod") source.

Definition sample_spec : ArgSpec := Build_ArgSpec ["a"; "b"] ["0"] None None.

(** [def add(a, b=0)] with a doctest that calls it. *)
Definition sample_add : pyobj :=
  PyFunction (sample_attrs (PyString "Adds two numbers. >>> add(1, 2)")
                           (Some (["def add(a, b=0):"], 4)))
             sample_spec.






(** A class without a docstring. *)
Definition sample_bare_class : pyobj :=
  PyClass (sample_attrs PyNone (Some (["class Foo(object):"], 12))) [].

(** One public function with a doctest and one public class without any
    documentation. *)
Definition sample_module : pymodule :=
  [("Foo", sample_bare_class); ("add", sample_add)].

(** A module that only re-exports what [os.path] defines. *)
Definition sample_reexports : pymodule :=
  [("join", PyFunction (Build_ObjAttrs (PyString "Join two paths.")
                          (Some "posixpath") None)
                       (Build_ArgSpec ["a"] [] (Some "p") None));
   ("sep", PyOther (Build_ObjAttrs (PyString "str(object) -> string")
                      None None))].

Definition sample_import (module_path : string) : ImportResult :=
  if String.eqb module_path "pkg.mod" then Imported sample_module
  else if String.eqb module_path "pkg.compat" then Imported sample_reexports
  else ImportFailed "ImportError('No module named gmpy',)".


Definition sample_get_mod_name (path base : string) : string :=
  if String.eqb path "top/pkg/mod.py" then "pkg.mod"
  else if String.eqb path "top/pkg/compat.py" then "pkg.compat"
  else if String.eqb path "top/pkg/test_mod.py" then "pkg.mod"
  else "pkg.broken".

Definition sample_entries : list (string * fsnode) :=
  [("mod.py", File); ("broken.py", File); ("test_mod.py", File);
   ("__init__.py", File); ("README", File)].

Definition sample_fs (path : string) : fsnode :=
  if String.eqb path "top/pkg" then Dir sample_entries
  else if String.eqb path "top/pkg/mod.py" then File
  else if String.eqb path "top/pkg/broken.py" then File
  else Missing.

Definition sample_normpath (path : string) : string := path.

(** * Properties *)

(** ** Loops *)

Section ForEach.

Context {S X : Type} (body : S -> X -> Res S).

(** A property kept by every normally ending iteration is kept by the
    loop. *)
Lemma for_each_invariant (P : S -> Prop) (l : list X) :
  (forall st x st', In x l -> P st -> body st x = Ok st' -> P st') ->
  forall st st', P st -> for_each body l st = Ok st' -> P st'.
Proof.
  induction l as [|x l IH]; intros Hstep st st' HP Hrun; simpl in Hrun.
  - injection Hrun as <-; exact HP.
  - destruct (body st x) as [st1|e] eqn:Hb; simpl in Hrun; [|discriminate].
    apply (IH (fun st0 y st0' Hin => Hstep st0 y st0' (or_intror Hin))
              st1 st'); [|exact Hrun].
    apply (Hstep st x st1); [left; reflexivity | exact HP | exact Hb].
Qed.


End ForEach.

(** ** Strings and names *)



(** ** The parameter string *)






(** ** [process_function], step by step *)











(** Whatever the member: a doctest is only returned together with a
    member, and the report lists only grow. *)
Lemma after_label_doctest_member (name : string) (obj : pyobj)
    (full_name : string) (F F' : Lists) (f_dt f : bool) :
  after_label name obj full_name F = Ok (f_dt, f, F') ->
  f_dt = true -> f = true.
Proof.
  unfold after_label.
  destruct (PyStr.startswith name "_"); cbn [rbind];
    [intros H; injection H as <- <- <-; discriminate|].
  destruct (py_truthy (attr_doc (attrs obj))); cbn [negb rbind].
  - destruct (py_in ">>>" (attr_doc (attrs obj))) as [[|]|e];
      cbn [negb rbind]; try discriminate.
    + destruct (_is_indirect name (attr_doc (attrs obj))) as [[|]|e];
        cbn [negb rbind orb]; try discriminate.
      * destruct (attr_source (attrs obj)) as [[src ln]|];
          intros H; injection H as <- <- <-; discriminate.
      * intros H; injection H as <- <- <-; reflexivity.
    + cbn [orb]. destruct (attr_source (attrs obj)) as [[src ln]|];
        intros H; injection H as <- <- <-; discriminate.
  - cbn [orb]. destruct (attr_source (attrs obj)) as [[src ln]|];
      intros H; injection H as <- <- <-; discriminate.
Qed.

Lemma process_function_doctest_member (name c_name : string) (b_obj : pyobj)
    (mod_path : string) (F F' : Lists) (sk_list : list string)
    (f_dt f : bool) :
  process_function name c_name b_obj mod_path F sk_list = Ok (f_dt, f, F') ->
  f_dt = true -> f = true.
Proof.
  unfold process_function.
  destruct (name_in name sk_list);
    [intros H; injection H as <- <- <-; discriminate|].
  destruct (if isclass b_obj then getattr b_obj name else Ok b_obj)
    as [obj|e]; cbn [rbind]; [|discriminate].
  destruct (if isclass b_obj
            then _get_arg_list (c_name ++ "." ++ name) obj
            else _get_arg_list name obj) as [full|e]; cbn [rbind];
    [|discriminate].
  apply (after_label_doctest_member name obj full F F' f_dt f).
Qed.

(** ** [process_class], case by case *)





(** A class doctest is only returned for a counted class, and a counted
    class comes with its source. *)
Lemma process_class_counted (c_name : string) (obj : pyobj) (C C' : Lists)
    (c_dt c : bool) (source : option (list string)) :
  process_class c_name obj C = Ok (c_dt, c, source, C') ->
  (c_dt = true -> c = true) /\
  (c = true -> exists src, source = Some src).
Proof.
  unfold process_class.
  destruct (PyStr.startswith c_name "_");
    [intros H; injection H as <- <- <- <-; split; discriminate|].
  destruct (attr_source (attrs obj)) as [[src ln]|];
    [|intros H; injection H as <- <- <- <-; split; discriminate].
  destruct (negb (py_truthy (attr_doc (attrs obj))));
    [intros H; injection H as <- <- <- <-; split; eauto|].
  destruct (py_in ">>>" (attr_doc (attrs obj))) as [[|]|e]; cbn [negb rbind];
    try discriminate;
    [|intros H; injection H as <- <- <- <-; split; eauto].
  destruct (_is_indirect c_name (attr_doc (attrs obj))) as [[|]|e];
    cbn [rbind]; try discriminate;
    intros H; injection H as <- <- <- <-; split; eauto.
Qed.

(** ** Counters *)




Lemma count_function_ok (st : CovState) (f_dt f : bool) (F : Lists) :
  counts_ok st -> (f_dt = true -> f = true) ->
  counts_ok (count_function st f_dt f F).
Proof.
  unfold counts_ok; intros [Hc Hf] Himp; simpl. split; [exact Hc|].
  destruct f_dt; [rewrite (Himp eq_refl); lia|].
  destruct f; lia.
Qed.

Lemma count_class_ok (st : CovState) (c_dt : bool) (C : Lists) :
  counts_ok st -> counts_ok (count_class st c_dt C).
Proof.
  unfold counts_ok; intros [Hc Hf]; simpl. split; [|exact Hf].
  destruct c_dt; lia.
Qed.

Lemma method_step_counts (module_path member : string) (obj : pyobj)
    (source : option (list string)) (st st' : CovState) (f_name : string) :
  counts_ok st ->
  method_step module_path member obj source st f_name = Ok st' ->
  counts_ok st'.
Proof.
  intros Hok. unfold method_step.
  destruct (name_in f_name skip_members || PyStr.startswith f_name "_");
    [intros H; injection H as <-; exact Hok|].
  destruct source as [src|]; cbn [rbind]; [|discriminate].
  destruct (negb (PyStr.contains ("def " ++ f_name) (PyStr.join " " src)));
    [intros H; injection H as <-; exact Hok|].
  destruct (getattr obj f_name) as [f_obj|e]; cbn [rbind]; [|discriminate].
  destruct (negb (in_module f_obj module_path));
    [intros H; injection H as <-; exact Hok|].
  destruct (isfunction f_obj || ismethod f_obj);
    [|intros H; injection H as <-; exact Hok].
  destruct (process_function f_name member obj module_path (f_lists st)
              skip_members) as [[[f_dt f] F]|e] eqn:Hpf; cbn [rbind];
    [|discriminate].
  intros H; injection H as <-.
  apply count_function_ok; [exact Hok|].
  apply (process_function_doctest_member _ _ _ _ _ _ _ _ _ Hpf).
Qed.

Lemma member_step_counts (module_path : string) (st st' : CovState)
    (entry : string * pyobj) :
  counts_ok st ->
  member_step module_path st entry = Ok st' ->
  counts_ok st'.
Proof.
  intros Hok. destruct entry as [member obj]. unfold member_step.
  destruct (name_in member skip_members);
    [intros H; injection H as <-; exact Hok|].
  destruct (negb (in_module obj module_path));
    [intros H; injection H as <-; exact Hok|].
  destruct (isfunction obj || ismethod obj).
  - destruct (process_function member "" obj module_path (f_lists st)
                skip_members) as [[[f_dt f] F]|e] eqn:Hpf; cbn [rbind];
      [|discriminate].
    intros H; injection H as <-.
    apply count_function_ok; [exact Hok|].
    apply (process_function_doctest_member _ _ _ _ _ _ _ _ _ Hpf).
  - destruct (isclass obj); [|intros H; injection H as <-; exact Hok].
    destruct (process_class member obj (c_lists st))
      as [[[[c_dt c] source] C]|e]; cbn [rbind]; [|discriminate].
    destruct c; cbn [negb];
      [|intros H; injection H as <-; exact Hok].
    apply for_each_invariant.
    + intros s x s' _ Hs. apply method_step_counts. exact Hs.
    + apply count_class_ok. exact Hok.
Qed.

Lemma scan_members_counts (module_path : string) (m : pymodule)
    (st : CovState) :
  scan_members module_path m = Ok st -> counts_ok st.
Proof.
  unfold scan_members. apply for_each_invariant.
  - intros s x s' _ Hs. apply member_step_counts. exact Hs.
  - split; simpl; lia.
Qed.

(** ** Modules the scan cannot fail on *)







(** ** No member makes the scan call [sys.exit] *)

Lemma no_exit_ok {A} (a : A) : no_exit (Ok a).
Proof. intros code; discriminate. Qed.

Lemma no_exit_bind {A B} (m : Res A) (f : A -> Res B) :
  no_exit m -> (forall a, no_exit (f a)) -> no_exit (rbind m f).
Proof.
  intros Hm Hf. destruct m as [a|e]; cbn [rbind]; [apply Hf|].
  intros code H. apply (Hm code). injection H as ->. reflexivity.
Qed.

Ltac no_exit_step :=
  match goal with
  | |- no_exit (Ok _) => apply no_exit_ok
  | |- no_exit (Raise TypeError) => intros ?; discriminate
  | |- no_exit (Raise IndexError) => intros ?; discriminate
  | |- no_exit (Raise AttributeError) => intros ?; discriminate
  | |- no_exit (rbind _ _) => apply no_exit_bind; [|intros ?]
  | |- no_exit (if ?b then _ else _) => destruct b
  | |- no_exit (match ?x with _ => _ end) => destruct x
  end.

Lemma py_in_no_exit (sub : string) (v : pyval) : no_exit (py_in sub v).
Proof. unfold py_in. repeat no_exit_step. Qed.

Lemma py_getitem_no_exit {A} (l : list A) (i : Z) : no_exit (py_getitem l i).
Proof. unfold py_getitem. repeat no_exit_step. Qed.

Lemma py_setitem_no_exit {A} (l : list A) (i : nat) (v : A) :
  no_exit (py_setitem l i v).
Proof.
  revert i; induction l as [|a l IH]; intros i; cbn [py_setitem].
  - destruct i; intros ?; discriminate.
  - destruct i as [|i]; [apply no_exit_ok|].
    apply no_exit_bind; [apply IH | intros ?; apply no_exit_ok].
Qed.

Lemma add_defaults_no_exit (dflts : list string) (idxs : list nat) :
  forall arg_list, no_exit (add_defaults dflts idxs arg_list).
Proof.
  induction idxs as [|i idxs IH]; intros arg_list; cbn [add_defaults].
  - apply no_exit_ok.
  - apply no_exit_bind; [apply py_getitem_no_exit | intros a].
    apply no_exit_bind; [apply py_getitem_no_exit | intros d].
    apply no_exit_bind; [apply py_setitem_no_exit | intros l].
    apply IH.
Qed.

Lemma get_arg_list_no_exit (name : string) (fobj : pyobj) :
  no_exit (_get_arg_list name fobj).
Proof.
  unfold _get_arg_list.
  apply no_exit_bind; [unfold getargspec; repeat no_exit_step | intros spec].
  apply no_exit_bind; [|intros l; apply no_exit_ok].
  destruct (defaults spec); [apply no_exit_ok | apply add_defaults_no_exit].
Qed.

Lemma is_indirect_no_exit (member : string) (doc : pyval) :
  no_exit (_is_indirect member doc).
Proof.
  unfold _is_indirect.
  apply no_exit_bind; [apply py_in_no_exit | intros d].
  apply no_exit_bind; [apply py_in_no_exit | intros e].
  repeat no_exit_step.
Qed.

Lemma getattr_no_exit (b_obj : pyobj) (name : string) :
  no_exit (getattr b_obj name).
Proof. unfold getattr. repeat no_exit_step. Qed.

Lemma process_function_no_exit (name c_name : string) (b_obj : pyobj)
    (mod_path : string) (F : Lists) (sk_list : list string) :
  no_exit (process_function name c_name b_obj mod_path F sk_list).
Proof.
  unfold process_function.
  destruct (name_in name sk_list); [apply no_exit_ok|].
  apply no_exit_bind;
    [destruct (isclass b_obj); [apply getattr_no_exit | apply no_exit_ok]|].
  intros obj.
  apply no_exit_bind;
    [destruct (isclass b_obj); apply get_arg_list_no_exit|].
  intros full.
  apply no_exit_bind.
  - destruct (PyStr.startswith name "_"); [apply no_exit_ok|].
    apply no_exit_bind.
    + cbv zeta. destruct (negb (py_truthy (attr_doc (attrs obj))));
        [apply no_exit_ok|].
      apply no_exit_bind; [apply py_in_no_exit | intros m].
      destruct (negb m); [apply no_exit_ok|].
      apply no_exit_bind; [apply is_indirect_no_exit | intros i].
      destruct i; apply no_exit_ok.
    + intros [[[a b] c] d]. apply no_exit_ok.
  - intros [[[[[a b] c] d] f] F']. repeat no_exit_step.
Qed.

Lemma process_class_no_exit (c_name : string) (obj : pyobj) (C : Lists) :
  no_exit (process_class c_name obj C).
Proof.
  unfold process_class.
  destruct (PyStr.startswith c_name "_"); [apply no_exit_ok|].
  destruct (attr_source (attrs obj)) as [[src ln]|]; [|apply no_exit_ok].
  cbv zeta. destruct (negb (py_truthy (attr_doc (attrs obj))));
    [apply no_exit_ok|].
  apply no_exit_bind; [apply py_in_no_exit | intros m].
  destruct (negb m); [apply no_exit_ok|].
  apply no_exit_bind; [apply is_indirect_no_exit | intros i].
  destruct i; apply no_exit_ok.
Qed.

Lemma for_each_no_exit {S X} (body : S -> X -> Res S) (l : list X) :
  (forall st x, no_exit (body st x)) ->
  forall st, no_exit (for_each body l st).
Proof.
  intros Hb. induction l as [|x l IH]; intros st; cbn [for_each].
  - apply no_exit_ok.
  - apply no_exit_bind; [apply Hb | exact IH].
Qed.

Lemma method_step_no_exit (module_path member : string) (obj : pyobj)
    (source : option (list string)) (st : CovState) (f_name : string) :
  no_exit (method_step module_path member obj source st f_name).
Proof.
  unfold method_step.
  destruct (name_in f_name skip_members || PyStr.startswith f_name "_");
    [apply no_exit_ok|].
  apply no_exit_bind; [repeat no_exit_step | intros joined].
  destruct (negb (PyStr.contains ("def " ++ f_name) joined));
    [apply no_exit_ok|].
  apply no_exit_bind; [apply getattr_no_exit | intros f_obj].
  destruct (negb (in_module f_obj module_path)); [apply no_exit_ok|].
  destruct (isfunction f_obj || ismethod f_obj); [|apply no_exit_ok].
  apply no_exit_bind; [apply process_function_no_exit|].
  intros [[f_dt f] F]. apply no_exit_ok.
Qed.

Lemma member_step_no_exit (module_path : string) (st : CovState)
    (entry : string * pyobj) :
  no_exit (member_step module_path st entry).
Proof.
  destruct entry as [member obj]. unfold member_step.
  destruct (name_in member skip_members); [apply no_exit_ok|].
  destruct (negb (in_module obj module_path)); [apply no_exit_ok|].
  destruct (isfunction obj || ismethod obj).
  - apply no_exit_bind; [apply process_function_no_exit|].
    intros [[f_dt f] F]. apply no_exit_ok.
  - destruct (isclass obj); [|apply no_exit_ok].
    apply no_exit_bind; [apply process_class_no_exit|].
    intros [[[c_dt c] source] C].
    destruct (negb c); [apply no_exit_ok|].
    apply for_each_no_exit. intros s x. apply method_step_no_exit.
Qed.

Lemma scan_members_no_exit (module_path : string) (m : pymodule) :
  no_exit (scan_members module_path m).
Proof.
  unfold scan_members. apply for_each_no_exit.
  intros st x. apply member_step_no_exit.
Qed.

(** ** Output and outcome of sequenced prints *)

Lemma snd_bind {A B} (m : IO A) (f : A -> IO B) :
  snd (bind m f) = (a <- snd m ;; snd (f a)).
Proof.
  destruct m as [out [a|e]]; simpl; [|reflexivity].
  destruct (f a); reflexivity.
Qed.

Lemma score_of_le (d n : nat) : d <= n -> score_of d n <= 100.
Proof.
  intros Hle. unfold score_of.
  destruct (Nat.eqb_spec n 0) as [_|Hn]; [lia|].
  apply Nat.Div0.div_le_upper_bound. nia.
Qed.

(** Induction on a file tree, with the property known of every entry of
    a directory. *)
Lemma fsnode_ind' (P : fsnode -> Prop) :
  P Missing -> P File ->
  (forall entries, Forall (fun e => P (snd e)) entries -> P (Dir entries)) ->
  forall node, P node.
Proof.
  intros HM HF HD. fix IH 1. intros [| |entries].
  - exact HM.
  - exact HF.
  - apply HD.
    refine ((fix all (es : list (string * fsnode))
               : Forall (fun e => P (snd e)) es :=
               match es with
               | [] => Forall_nil _
               | (F, child) :: es' =>
                   Forall_cons (F, child) (IH child) (all es')
               end) entries).
Qed.

Section Scan.

Variable import_module : string -> ImportResult.
Variable get_mod_name : string -> string -> string.
Variable normpath : string -> string.
Variable fs : string -> fsnode.


Lemma coverage_result (module_path : string) (verbose no_color : bool) :
  snd (coverage import_module module_path verbose no_color) =
  match import_module module_path with
  | ImportFailed _ => Ok (0, 0)
  | ImportExit code => Raise (SystemExit code)
  | ImportInterrupted => Raise KeyboardInterrupt
  | Imported m =>
      st <- scan_members module_path m ;;
      Ok (c_doctests st + f_doctests st, classes st + functions st)
  end.
Proof.
  unfold coverage. destruct (import_module module_path) as [m|a|code|];
    try reflexivity.
  destruct (scan_members module_path m); reflexivity.
Qed.


Lemma coverage_import_interrupted (module_path : string)
    (verbose no_color : bool) :
  import_module module_path = ImportInterrupted ->
  coverage import_module module_path verbose no_color =
  ([], Raise KeyboardInterrupt).
Proof. intros H. unfold coverage. rewrite H. reflexivity. Qed.

(** The scan of a module only ends in [SystemExit] when its import
    does. *)
Lemma coverage_exit (module_path : string) (verbose no_color : bool)
    (code : Z) :
  snd (coverage import_module module_path verbose no_color) =
  Raise (SystemExit code) ->
  import_module module_path = ImportExit code.
Proof.
  rewrite coverage_result.
  destruct (import_module module_path) as [m|a|code'|]; try discriminate.
  - destruct (scan_members module_path m) as [st|e] eqn:Hs;
      cbn [rbind]; [discriminate|].
    intros H; injection H as ->.
    exfalso. apply (scan_members_no_exit _ _ _ Hs).
  - intros H; injection H as ->. reflexivity.
Qed.

Lemma coverage_counts (module_path : string) (verbose no_color : bool)
    (d n : nat) :
  snd (coverage import_module module_path verbose no_color) = Ok (d, n) ->
  d <= n.
Proof.
  rewrite coverage_result.
  destruct (import_module module_path) as [m|a|code|]; try discriminate.
  - destruct (scan_members module_path m) as [st|e] eqn:Hs; cbn [rbind];
      [|discriminate].
    intros H; injection H as <- <-.
    destruct (scan_members_counts _ _ _ Hs). lia.
  - intros H; injection H as <- <-. lia.
Qed.


Lemma go_dir (sympy_top file : string) (entries : list (string * fsnode))
    (verbose no_color exact : bool) :
  go import_module get_mod_name sympy_top file (Dir entries)
     verbose no_color exact =
  go_entries import_module get_mod_name sympy_top file entries
     verbose no_color (0, 0).
Proof.
  cbn [go]. generalize (0, 0).
  induction entries as [|[F child] es IH]; intros acc; [reflexivity|].
  cbn [go_entries]. unfold bind.
  destruct (go import_module get_mod_name sympy_top (file ++ "/" ++ F)
              child verbose no_color false) as [out [r|e]]; [|reflexivity].
  rewrite IH. reflexivity.
Qed.

Lemma go_not_dir (sympy_top file : string) (node : fsnode)
    (verbose no_color exact : bool) :
  (forall entries, node <> Dir entries) ->
  go import_module get_mod_name sympy_top file node
     verbose no_color exact =
  if filtered_out file exact then ret (0, 0)
  else match node with
       | File => coverage import_module (get_mod_name file sympy_top)
                   verbose no_color
       | _ => (["File " ++ file ++ " does not exist."],
               Raise (SystemExit 1))
       end.
Proof.
  intros Hnd. destruct node as [| |entries]; [reflexivity | reflexivity|].
  exfalso; apply (Hnd entries); reflexivity.
Qed.


(** The sums returned for a listing whose entries all return. *)
Lemma go_entries_sum (sympy_top file : string)
    (es : list (string * fsnode)) (verbose no_color : bool)
    (rs : list (nat * nat)) :
  Forall2 (fun e r =>
             snd (go import_module get_mod_name sympy_top
                    (file ++ "/" ++ fst e) (snd e) verbose no_color false)
             = Ok r) es rs ->
  forall acc,
    snd (go_entries import_module get_mod_name sympy_top file es
           verbose no_color acc) =
    Ok (fst acc + sum_fst rs, snd acc + sum_snd rs).
Proof.
  induction 1 as [|[F child] r es rs Hr _ IH]; intros acc.
  - cbn. rewrite !Nat.add_0_r. destruct acc; reflexivity.
  - cbn [go_entries]. rewrite snd_bind.
    cbn [fst snd] in Hr. rewrite Hr. cbn [rbind]. rewrite IH.
    unfold sum_fst, sum_snd. cbn [map list_sum fold_right fst snd].
    rewrite !Nat.add_assoc. reflexivity.
Qed.

(** Conversely, a listing only returns when each entry does. *)
Lemma go_entries_returns (sympy_top file : string)
    (es : list (string * fsnode)) (verbose no_color : bool) :
  forall acc res,
    snd (go_entries import_module get_mod_name sympy_top file es
           verbose no_color acc) = Ok res ->
    exists rs,
      Forall2 (fun e r =>
                 snd (go import_module get_mod_name sympy_top
                        (file ++ "/" ++ fst e) (snd e)
                        verbose no_color false) = Ok r) es rs.
Proof.
  induction es as [|[F child] es IH]; intros acc res.
  - intros _. exists []. constructor.
  - cbn [go_entries]. rewrite snd_bind.
    destruct (snd (go import_module get_mod_name sympy_top
                     (file ++ "/" ++ F) child verbose no_color false))
      as [r|e] eqn:Hr; cbn [rbind]; [|discriminate].
    intros Hrest. destruct (IH _ _ Hrest) as [rs Hrs].
    exists (r :: rs). constructor; [exact Hr | exact Hrs].
Qed.

Lemma go_counts (sympy_top file : string) (node : fsnode)
    (verbose no_color : bool) :
  forall exact d n,
    snd (go import_module get_mod_name sympy_top file node
           verbose no_color exact) = Ok (d, n) ->
    d <= n.
Proof.
  revert file.
  induction node as [| |entries IH] using fsnode_ind'; intros file exact d n.
  - rewrite go_not_dir by discriminate.
    destruct (filtered_out file exact); cbn; [|discriminate].
    intros H; injection H as <- <-; lia.
  - rewrite go_not_dir by discriminate.
    destruct (filtered_out file exact);
      [cbn; intros H; injection H as <- <-; lia|].
    apply coverage_counts.
  - rewrite go_dir. intros Hrun.
    destruct (go_entries_returns _ _ _ _ _ _ _ Hrun) as [rs Hrs].
    rewrite (go_entries_sum _ _ _ _ _ _ Hrs) in Hrun.
    injection Hrun as <- <-. cbn [fst snd].
    clear - IH Hrs. unfold sum_fst, sum_snd.
    induction Hrs as [|[F child] [d n] es rs Hr _ IHrs]; [cbn; lia|].
    cbn [map list_sum fold_right fst snd].
    inversion IH as [|? ? Hc Hrest]; subst.
    specialize (IHrs Hrest). cbn [fst snd] in Hr, Hc.
    specialize (Hc _ _ _ _ Hr). unfold list_sum in IHrs. lia.
Qed.



(** The files of a listing are files of the directory. *)
Lemma scanned_files_cons (file F : string) (child : fsnode)
    (es : list (string * fsnode)) (exact : bool) (f : string) :
  In f (scanned_files (file ++ "/" ++ F) child false) \/
  In f (scanned_files file (Dir es) false) ->
  In f (scanned_files file (Dir ((F, child) :: es)) exact).
Proof.
  intros H. cbn [scanned_files]. apply in_or_app.
  destruct H as [H|H]; [left; exact H | right; exact H].
Qed.

(** Where a [SystemExit] of the tree scan comes from: the scan itself
    calls [sys.exit], with code 1, on something missing (its target when
    the file-name filter lets it through, or an entry of a listing);
    any other comes out of the import of one of the scanned files. *)
Lemma go_exit_origin (sympy_top : string) (verbose no_color : bool) :
  forall node file exact code,
    snd (go import_module get_mod_name sympy_top file node
           verbose no_color exact) = Raise (SystemExit code) ->
    (code = 1%Z /\
     (listed_exist node = false \/
      (node = Missing /\ filtered_out file exact = false))) \/
    (exists f,
       In f (scanned_files file node exact) /\
       import_module (get_mod_name f sympy_top) = ImportExit code).
Proof.
  induction node as [| |entries IH] using fsnode_ind';
    intros file exact code.
  - rewrite go_not_dir by discriminate.
    destruct (filtered_out file exact); [discriminate|].
    cbn [snd]. intros H; injection H as <-.
    left. split; [reflexivity|]. right; split; reflexivity.
  - rewrite go_not_dir by discriminate. cbn [scanned_files].
    destruct (filtered_out file exact); [discriminate|].
    intros H. right. exists file. split; [left; reflexivity|].
    exact (coverage_exit _ _ _ _ H).
  - rewrite go_dir. generalize (0, 0).
    assert (Hes : forall acc,
              snd (go_entries import_module get_mod_name sympy_top file
                     entries verbose no_color acc) =
              Raise (SystemExit code) ->
              (code = 1%Z /\ listed_exist (Dir entries) = false) \/
              (exists f,
                 In f (scanned_files file (Dir entries) false) /\
                 import_module (get_mod_name f sympy_top) =
                 ImportExit code)).
    { induction entries as [|[F child] es IHes]; intros acc;
        [discriminate|].
      inversion IH as [|? ? Hchild Hrest]; subst. cbn [snd] in Hchild.
      cbn [go_entries]. rewrite snd_bind.
      destruct (snd (go import_module get_mod_name sympy_top
                       (file ++ "/" ++ F) child verbose no_color false))
        as [r|e] eqn:Hr; cbn [rbind].
      - intros Hrun.
        destruct (IHes Hrest _ Hrun) as [[Hcode Hfalse] | [f [Hin Hf]]].
        + left. split; [exact Hcode|].
          cbn [listed_exist] in Hfalse |- *.
          destruct child; [reflexivity | exact Hfalse|].
          rewrite Hfalse. apply andb_false_r.
        + right. exists f. split; [|exact Hf].
          apply scanned_files_cons. right; exact Hin.
      - intros H; injection H as ->.
        destruct (Hchild _ _ _ Hr)
          as [[Hcode [Hfalse | [-> _]]] | [f [Hin Hf]]].
        + left. split; [exact Hcode|].
          cbn [listed_exist] in Hfalse |- *.
          destruct child; [reflexivity | discriminate Hfalse|].
          rewrite Hfalse. reflexivity.
        + left. split; [exact Hcode | reflexivity].
        + right. exists f. split; [|exact Hf].
          apply scanned_files_cons. left; exact Hin. }
    intros acc Hrun.
    destruct (Hes acc Hrun) as [[Hcode Hfalse] | [f [Hin Hf]]].
    + left. split; [exact Hcode | left; exact Hfalse].
    + right. exists f. split; [|exact Hf].
      destruct exact; exact Hin.
Qed.

Lemma main_file_result (sympy_top : string) (verbose no_color : bool)
    (file : string) :
  snd (main_file import_module get_mod_name normpath fs sympy_top
         verbose no_color file) =
  (r <- snd (go import_module get_mod_name sympy_top (normpath file)
               (fs (normpath file)) verbose no_color true) ;;
   Ok tt).
Proof.
  unfold main_file. rewrite !snd_bind. cbn [print snd rbind].
  destruct (snd (go import_module get_mod_name sympy_top (normpath file)
                   (fs (normpath file)) verbose no_color true))
    as [[d n]|e]; [|reflexivity].
  cbn [rbind]. rewrite !snd_bind. reflexivity.
Qed.


End Scan.

(** * The documented properties *)

(** ** Of the classification *)

















(** The scenario of the documentation: functions = 1, classes = 1,
    doctests = 1, score = 50. *)
Lemma sample_module_scan :
  exists st,
    scan_members "pkg.mod" sample_module = Ok st /\
    functions st = 1 /\ classes st = 1 /\
    c_doctests st + f_doctests st = 1 /\
    score_of (c_doctests st + f_doctests st) (classes st + functions st) = 50.
Proof. eexists; split; [reflexivity|]. repeat split. Qed.

(** ** Of the module scan and the tree scan *)

Section Claims.

Variable import_module : string -> ImportResult.
Variable get_mod_name : string -> string -> string.
Variable normpath : string -> string.
Variable fs : string -> fsnode.

Lemma main_file_output (sympy_top : string) (verbose no_color : bool)
    (arg : string) (d n : nat) :
  snd (go import_module get_mod_name sympy_top (normpath arg)
         (fs (normpath arg)) verbose no_color true) = Ok (d, n) ->
  fst (main_file import_module get_mod_name normpath fs sympy_top
         verbose no_color arg) =
  ([("DOCTEST COVERAGE for " ++ normpath arg)%string;
    PyStr.repeat "=" 70; ""] ++
   fst (go import_module get_mod_name sympy_top (normpath arg)
          (fs (normpath arg)) verbose no_color true) ++
   [""; PyStr.repeat "=" 70;
    ("TOTAL SCORE for " ++ get_mod_name (normpath arg) sympy_top ++ ": " ++
     score_string (score_of d n) d n no_color)%string;
    ""])%list.
Proof.
  unfold main_file.
  destruct (go import_module get_mod_name sympy_top (normpath arg)
              (fs (normpath arg)) verbose no_color true) as [out [r|e]];
    cbn [snd]; [|discriminate].
  intros H; injection H as ->. unfold bind, print. cbn [fst app].
  reflexivity.
Qed.

(** C2.  When the entries of a directory return their pairs, the scan of
    the directory returns the sum of the first components and the sum of
    the second ones; the total score the main loop prints for it is the
    score of these two sums, which is not the mean of the scores of the
    entries (9 of 10 and 0 of 1 give 81, not 45). *)
Theorem directory_scan_sums (sympy_top file : string)
    (entries : list (string * fsnode)) (verbose no_color exact : bool)
    (rs : list (nat * nat)) :
  Forall2 (fun e r =>
             snd (go import_module get_mod_name sympy_top
                    (file ++ "/" ++ fst e) (snd e) verbose no_color false)
             = Ok r) entries rs ->
  snd (go import_module get_mod_name sympy_top file (Dir entries)
         verbose no_color exact) = Ok (sum_fst rs, sum_snd rs) /\
  (forall arg,
     normpath arg = file -> fs file = Dir entries ->
     In ("TOTAL SCORE for " ++ get_mod_name file sympy_top ++ ": " ++
         score_string (score_of (sum_fst rs) (sum_snd rs))
                      (sum_fst rs) (sum_snd rs) no_color)
        (fst (main_file import_module get_mod_name normpath fs sympy_top
                verbose no_color arg))) /\
  score_of (9 + 0) (10 + 1) = 81 /\
  (score_of 9 10 + score_of 0 1) / 2 = 45.
Proof.
  intros Hrs.
  assert (Hsum : forall ex,
            snd (go import_module get_mod_name sympy_top file (Dir entries)
                   verbose no_color ex) = Ok (sum_fst rs, sum_snd rs)).
  { intros ex. rewrite go_dir.
    rewrite (go_entries_sum _ _ _ _ _ _ _ _ Hrs). reflexivity. }
  split; [apply Hsum|]. split; [|split; reflexivity].
  intros arg Harg Hfs.
  rewrite (main_file_output sympy_top verbose no_color arg
             (sum_fst rs) (sum_snd rs)).
  - rewrite Harg. apply in_or_app; right. apply in_or_app; right.
    right; right; left; reflexivity.
  - rewrite Harg, Hfs. apply Hsum.
Qed.

(** C10.  Every pair returned by the module scan or by the tree scan has
    its first component between 0 and the second, so that the score made
    of it lies between 0 and 100. *)
Theorem doctests_le_members :
  (forall module_path verbose no_color d n,
     snd (coverage import_module module_path verbose no_color) = Ok (d, n) ->
     0 <= d <= n /\ 0 <= score_of d n <= 100) /\
  (forall sympy_top file node verbose no_color exact d n,
     snd (go import_module get_mod_name sympy_top file node
            verbose no_color exact) = Ok (d, n) ->
     0 <= d <= n /\ 0 <= score_of d n <= 100).
Proof.
  split.
  - intros module_path verbose no_color d n H.
    pose proof (coverage_counts _ _ _ _ _ _ H) as Hle.
    pose proof (score_of_le d n Hle). lia.
  - intros sympy_top file node verbose no_color exact d n H.
    pose proof (go_counts _ _ _ _ _ _ _ _ _ _ H) as Hle.
    pose proof (score_of_le d n Hle). lia.
Qed.

(** C4.  When no name of a module is defined by the module itself, the
    scan ends with no class, no function and no doctest, the score is
    100, and [coverage] reports and returns just that. *)
Theorem reexporting_module_empty (module_path : string) (m : pymodule)
    (verbose no_color : bool) :
  import_module module_path = Imported m ->
  (forall name obj,
     In (name, obj) m -> attr_module (attrs obj) <> Some module_path) ->
  (exists st,
     scan_members module_path m = Ok st /\
     classes st = 0 /\ functions st = 0 /\
     c_doctests st = 0 /\ f_doctests st = 0 /\
     score_of (c_doctests st + f_doctests st) (classes st + functions st)
     = 100) /\
  coverage import_module module_path verbose no_color =
  (print_coverage module_path 0 [] [] [] 0 [] [] [] 100 0 0
                  verbose no_color,
   Ok (0, 0)).
Proof.
  intros Himp Hall.
  assert (Hscan : scan_members module_path m = Ok init_state).
  { clear Himp. unfold scan_members. generalize init_state.
    induction m as [|[name obj] m IH]; intros st; [reflexivity|].
    cbn [for_each]. unfold member_step at 1.
    assert (Hout : in_module obj module_path = false).
    { unfold in_module.
      destruct (attr_module (attrs obj)) as [n|] eqn:Hm; [|reflexivity].
      destruct (String.eqb_spec n module_path) as [->|_]; [|reflexivity].
      exfalso. apply (Hall name obj); [left; reflexivity | exact Hm]. }
    rewrite Hout. cbn [negb].
    destruct (name_in name skip_members); cbn [rbind];
      apply IH; intros n o Hin; apply (Hall n o); right; exact Hin. }
  split.
  - exists init_state. split; [exact Hscan|]. repeat split.
  - unfold coverage. rewrite Himp, Hscan. reflexivity.
Qed.

(** C5.  For a file: a path with the marker [test_] or [bench_] gives
    (0, 0) when [exact] is false and is handed to [coverage] when [exact]
    is true (its name being that of a source file and not of a package
    initializer); a path ending in [__init__.py] gives (0, 0) in both
    modes, and so does a path that ends neither in [.py] nor in
    [.pyx]. *)
Theorem file_name_filter (sympy_top file : string)
    (verbose no_color : bool) :
  (PyStr.contains "test_" file || PyStr.contains "bench_" file = true ->
   go import_module get_mod_name sympy_top file File verbose no_color false
   = ret (0, 0) /\
   (PyStr.endswith file ".py" || PyStr.endswith file ".pyx" = true ->
    PyStr.endswith file "__init__.py" = false ->
    go import_module get_mod_name sympy_top file File verbose no_color true
    = coverage import_module (get_mod_name file sympy_top)
        verbose no_color)) /\
  (PyStr.endswith file "__init__.py" = true ->
   forall exact,
     go import_module get_mod_name sympy_top file File verbose no_color
        exact = ret (0, 0)) /\
  (PyStr.endswith file ".py" || PyStr.endswith file ".pyx" = false ->
   forall exact,
     go import_module get_mod_name sympy_top file File verbose no_color
        exact = ret (0, 0)).
Proof.
  split; [|split].
  - intros Hmark. split.
    + rewrite go_not_dir by discriminate. unfold filtered_out.
      rewrite Hmark. cbn [negb andb]. rewrite orb_true_r. reflexivity.
    + intros Hext Hinit. rewrite go_not_dir by discriminate.
      unfold filtered_out. rewrite Hext, Hinit. reflexivity.
  - intros Hinit exact. rewrite go_not_dir by discriminate.
    unfold filtered_out. rewrite Hinit, orb_true_r. reflexivity.
  - intros Hext exact. rewrite go_not_dir by discriminate.
    unfold filtered_out. rewrite Hext. reflexivity.
Qed.




End Claims.

(** ** On the sample project *)




Lemma directory_scan_sums_witness :
  snd (go sample_import sample_get_mod_name "top" "top/pkg"
         (Dir sample_entries) false true true) = Ok (1, 2).
Proof.
  refine (proj1 (directory_scan_sums sample_import sample_get_mod_name
                   sample_normpath sample_fs "top" "top/pkg" sample_entries
                   false true true [(1, 2); (0, 0); (0, 0); (0, 0); (0, 0)]
                   _)).
  repeat constructor.
Defined.

Lemma doctests_le_members_witness :
  0 <= 1 <= 2 /\ 0 <= score_of 1 2 <= 100.
Proof.
  refine (proj2 (doctests_le_members sample_import sample_get_mod_name)
            "top" "top/pkg" (Dir sample_entries) false true true 1 2 _).
  reflexivity.
Defined.

Lemma reexporting_module_empty_witness :
  coverage sample_import "pkg.compat" false true =
  (["pkg.compat: 100% (0 of 0)"], Ok (0, 0)).
Proof.
  refine (proj2 (reexporting_module_empty sample_import "pkg.compat"
                   sample_reexports false true eq_refl _)).
  intros name obj [H | [H | []]]; injection H as <- <-; discriminate.
Defined.

Lemma file_name_filter_witness :
  go sample_import sample_get_mod_name "top" "top/pkg/test_mod.py" File
     false true false = ret (0, 0) /\
  go sample_import sample_get_mod_name "top" "top/pkg/test_mod.py" File
     false true true = (["pkg.mod: 50% (1 of 2)"], Ok (1, 2)) /\
  go sample_import sample_get_mod_name "top" "top/pkg/__init__.py" File
     false true true = ret (0, 0) /\
  go sample_import sample_get_mod_name "top" "top/pkg/README" File
     false true true = ret (0, 0).
Proof.
  pose proof (file_name_filter sample_import sample_get_mod_name "top"
                "top/pkg/test_mod.py" false true) as [Hmark _].
  pose proof (file_name_filter sample_import sample_get_mod_name "top"
                "top/pkg/__init__.py" false true) as [_ [Hinit _]].
  pose proof (file_name_filter sample_import sample_get_mod_name "top"
                "top/pkg/README" false true) as [_ [_ Hext]].
  destruct (Hmark eq_refl) as [Hskip Hscan].
  split; [exact Hskip|]. split; [exact (Hscan eq_refl eq_refl)|].
  split; [exact (Hinit eq_refl true) | exact (Hext eq_refl true)].
Defined.




(** * Further properties of the code *)

(** ** The report accounts for every counted member *)

Lemma after_label_effect (name : string) (obj : pyobj) (full_name : string)
    (F F' : Lists) (f_dt f : bool) :
  after_label name obj full_name F = Ok (f_dt, f, F') ->
  has_doctest F' = has_doctest F /\
  reported_count F' + (if f_dt then 1 else 0) =
  reported_count F + (if f then 1 else 0).
Proof.
  unfold after_label, reported_count.
  destruct (PyStr.startswith name "_"); cbn [rbind];
    [intros H; injection H as <- <- <-; split; reflexivity|].
  destruct (py_truthy (attr_doc (attrs obj))); cbn [negb rbind].
  - destruct (py_in ">>>" (attr_doc (attrs obj))) as [[|]|e];
      cbn [negb rbind]; try discriminate.
    + destruct (_is_indirect name (attr_doc (attrs obj))) as [[|]|e];
        cbn [negb rbind orb]; try discriminate.
      * destruct (attr_source (attrs obj)) as [[src ln]|];
          intros H; injection H as <- <- <-; cbn;
          rewrite ?length_app; cbn; split; (reflexivity || lia).
      * intros H; injection H as <- <- <-; split; reflexivity.
    + cbn [orb]. destruct (attr_source (attrs obj)) as [[src ln]|];
        intros H; injection H as <- <- <-; cbn;
        rewrite ?length_app; cbn; split; (reflexivity || lia).
  - cbn [orb]. destruct (attr_source (attrs obj)) as [[src ln]|];
      intros H; injection H as <- <- <-; cbn;
      rewrite ?length_app; cbn; split; (reflexivity || lia).
Qed.

Lemma process_function_effect (name c_name : string) (b_obj : pyobj)
    (mod_path : string) (F F' : Lists) (sk_list : list string)
    (f_dt f : bool) :
  process_function name c_name b_obj mod_path F sk_list = Ok (f_dt, f, F') ->
  has_doctest F' = has_doctest F /\
  reported_count F' + (if f_dt then 1 else 0) =
  reported_count F + (if f then 1 else 0).
Proof.
  unfold process_function.
  destruct (name_in name sk_list);
    [intros H; injection H as <- <- <-; split; reflexivity|].
  destruct (if isclass b_obj then getattr b_obj name else Ok b_obj)
    as [obj|e]; cbn [rbind]; [|discriminate].
  destruct (if isclass b_obj
            then _get_arg_list (c_name ++ "." ++ name) obj
            else _get_arg_list name obj) as [full|e]; cbn [rbind];
    [|discriminate].
  apply (after_label_effect name obj full F F' f_dt f).
Qed.

Lemma process_class_effect (c_name : string) (obj : pyobj) (C C' : Lists)
    (c_dt c : bool) (source : option (list string)) :
  process_class c_name obj C = Ok (c_dt, c, source, C') ->
  length (has_doctest C') =
  length (has_doctest C) + (if c_dt then 1 else 0) /\
  reported_count C' + (if c_dt then 1 else 0) =
  reported_count C + (if c then 1 else 0).
Proof.
  unfold process_class, reported_count.
  destruct (PyStr.startswith c_name "_");
    [intros H; injection H as <- <- <- <-; cbn; lia|].
  destruct (attr_source (attrs obj)) as [[src ln]|];
    [|intros H; injection H as <- <- <- <-; cbn; lia].
  destruct (negb (py_truthy (attr_doc (attrs obj))));
    [intros H; injection H as <- <- <- <-; cbn; rewrite ?length_app;
     cbn; lia|].
  destruct (py_in ">>>" (attr_doc (attrs obj))) as [[|]|e]; cbn [negb rbind];
    try discriminate;
    [|intros H; injection H as <- <- <- <-; cbn; rewrite ?length_app;
      cbn; lia].
  destruct (_is_indirect c_name (attr_doc (attrs obj))) as [[|]|e];
    cbn [rbind]; try discriminate;
    intros H; injection H as <- <- <- <-; cbn; rewrite ?length_app;
    cbn; lia.
Qed.

Lemma count_function_accounted (st : CovState) (f_dt f : bool) (F : Lists) :
  accounted st ->
  has_doctest F = has_doctest (f_lists st) ->
  reported_count F + (if f_dt then 1 else 0) =
  reported_count (f_lists st) + (if f then 1 else 0) ->
  accounted (count_function st f_dt f F).
Proof.
  unfold accounted. intros [Hc [Hcd [Hf Hh]]] HF Hn. cbn.
  repeat split; try assumption; [|congruence].
  destruct f_dt, f; lia.
Qed.

Lemma method_step_accounted (module_path member : string) (obj : pyobj)
    (source : option (list string)) (st st' : CovState) (f_name : string) :
  accounted st ->
  method_step module_path member obj source st f_name = Ok st' ->
  accounted st'.
Proof.
  intros Hok. unfold method_step.
  destruct (name_in f_name skip_members || PyStr.startswith f_name "_");
    [intros H; injection H as <-; exact Hok|].
  destruct source as [src|]; cbn [rbind]; [|discriminate].
  destruct (negb (PyStr.contains ("def " ++ f_name) (PyStr.join " " src)));
    [intros H; injection H as <-; exact Hok|].
  destruct (getattr obj f_name) as [f_obj|e]; cbn [rbind]; [|discriminate].
  destruct (negb (in_module f_obj module_path));
    [intros H; injection H as <-; exact Hok|].
  destruct (isfunction f_obj || ismethod f_obj);
    [|intros H; injection H as <-; exact Hok].
  destruct (process_function f_name member obj module_path (f_lists st)
              skip_members) as [[[f_dt f] F]|e] eqn:Hpf; cbn [rbind];
    [|discriminate].
  intros H; injection H as <-.
  destruct (process_function_effect _ _ _ _ _ _ _ _ _ Hpf) as [HF Hn].
  apply count_function_accounted; assumption.
Qed.

Lemma member_step_accounted (module_path : string) (st st' : CovState)
    (entry : string * pyobj) :
  accounted st ->
  member_step module_path st entry = Ok st' ->
  accounted st'.
Proof.
  intros Hok. destruct entry as [member obj]. unfold member_step.
  destruct (name_in member skip_members);
    [intros H; injection H as <-; exact Hok|].
  destruct (negb (in_module obj module_path));
    [intros H; injection H as <-; exact Hok|].
  destruct (isfunction obj || ismethod obj).
  - destruct (process_function member "" obj module_path (f_lists st)
                skip_members) as [[[f_dt f] F]|e] eqn:Hpf; cbn [rbind];
      [|discriminate].
    intros H; injection H as <-.
    destruct (process_function_effect _ _ _ _ _ _ _ _ _ Hpf) as [HF Hn].
    apply count_function_accounted; assumption.
  - destruct (isclass obj); [|intros H; injection H as <-; exact Hok].
    destruct (process_class member obj (c_lists st))
      as [[[[c_dt c] source] C]|e] eqn:Hpc; cbn [rbind]; [|discriminate].
    destruct (process_class_effect _ _ _ _ _ _ _ Hpc) as [Hh Hn].
    assert (Hacc : accounted (if c then count_class st c_dt C
                              else set_c_lists st C)).
    { destruct Hok as [Hc [Hcd [Hf Hfh]]].
      destruct (process_class_counted _ _ _ _ _ _ _ Hpc) as [Himp _].
      unfold accounted, reported_count in *.
      destruct c, c_dt; cbn in *; try (specialize (Himp eq_refl));
        try discriminate; repeat split; try assumption; lia. }
    destruct c; cbn [negb].
    + apply for_each_invariant; [|exact Hacc].
      intros s x s' _ Hs. apply method_step_accounted. exact Hs.
    + intros H; injection H as <-. exact Hacc.
Qed.

Lemma scan_members_accounted (module_path : string) (m : pymodule)
    (st : CovState) :
  scan_members module_path m = Ok st -> accounted st.
Proof.
  unfold scan_members. apply for_each_invariant.
  - intros s x s' _ Hs. apply member_step_accounted. exact Hs.
  - repeat split.
Qed.

(** X3.  After the scan of a module, the members counted without a
    doctest are as many as the labels of the six report lists: each
    counted member is doctested or in exactly one list.  The doctested
    classes are those of [c_has_doctest]; [f_has_doctest] stays empty. *)
Theorem report_accounts_for_members (module_path : string) (m : pymodule)
    (st : CovState) :
  scan_members module_path m = Ok st ->
  classes st + functions st =
  (c_doctests st + f_doctests st) +
  (reported_count (c_lists st) + reported_count (f_lists st)) /\
  c_doctests st = length (has_doctest (c_lists st)) /\
  has_doctest (f_lists st) = [].
Proof.
  intros Hscan.
  destruct (scan_members_accounted _ _ _ Hscan) as [Hc [Hcd [Hf Hh]]].
  repeat split; try assumption. lia.
Qed.

Lemma report_accounts_for_members_witness :
  exists st,
    scan_members "pkg.mod" sample_module = Ok st /\
    classes st + functions st =
    (c_doctests st + f_doctests st) +
    (reported_count (c_lists st) + reported_count (f_lists st)).
Proof.
  eexists. split; [reflexivity|].
  exact (proj1 (report_accounts_for_members "pkg.mod" sample_module _
                  eq_refl)).
Defined.

(** ** The sort of the report lists *)

Lemma insert_label_perm (x : label) (l : list label) :
  Permutation (x :: l) (insert_label x l).
Proof.
  induction l as [|y l IH]; cbn [insert_label]; [apply Permutation_refl|].
  destruct (Nat.leb (line_no x) (line_no y)); [apply Permutation_refl|].
  apply (Permutation_trans (perm_swap y x l)).
  apply perm_skip. exact IH.
Qed.

Lemma insert_label_sorted (x : label) (l : list label) :
  StronglySorted line_le l -> StronglySorted line_le (insert_label x l).
Proof.
  induction 1 as [|y l Hs IH Hy]; cbn [insert_label].
  - constructor; constructor.
  - destruct (Nat.leb_spec (line_no x) (line_no y)) as [Hle|Hlt].
    + constructor; [constructor; assumption|].
      constructor; [exact Hle|].
      rewrite Forall_forall in Hy |- *. intros z Hz.
      specialize (Hy z Hz). unfold line_le in *. lia.
    + constructor; [exact IH|].
      apply (Permutation_Forall (insert_label_perm x l)).
      constructor; [unfold line_le; lia | exact Hy].
Qed.

Lemma insert_label_on_line (k : nat) (x : label) (l : list label) :
  on_line k (insert_label x l) = on_line k (x :: l).
Proof.
  induction l as [|y l IH]; cbn [insert_label]; [reflexivity|].
  destruct (Nat.leb_spec (line_no x) (line_no y)) as [Hle|Hlt];
    [reflexivity|].
  unfold on_line in *. cbn [filter] in *. rewrite IH.
  destruct (Nat.eqb_spec (line_no x) k) as [Hx|Hx];
    destruct (Nat.eqb_spec (line_no y) k) as [Hy|Hy]; try reflexivity.
  lia.
Qed.

Lemma sorted_perm (l : list label) : Permutation l (sorted l).
Proof.
  unfold sorted. induction l as [|x l IH]; cbn [fold_right]; [constructor|].
  apply (Permutation_trans (perm_skip x IH)). apply insert_label_perm.
Qed.

(** X4.  The lists that [coverage] hands to the printer hold the labels
    it collected, each as often as collected, in non-decreasing order of
    line number, and the labels of one line keep the order in which they
    were collected. *)
Theorem sorted_by_line (l : list label) :
  Permutation l (sorted l) /\
  StronglySorted line_le (sorted l) /\
  (forall k, on_line k (sorted l) = on_line k l).
Proof.
  split; [apply sorted_perm|]. unfold sorted.
  induction l as [|x l [Hs Hk]]; cbn [fold_right].
  - split; [constructor | reflexivity].
  - split.
    + apply insert_label_sorted. exact Hs.
    + intros k. rewrite insert_label_on_line.
      unfold on_line in *. cbn [filter]. rewrite Hk. reflexivity.
Qed.

(** ** The score *)

Lemma score_of_full (d n : nat) :
  d <= n -> (score_of d n = 100 <-> d = n).
Proof.
  intros Hle. unfold score_of.
  destruct (Nat.eqb_spec n 0) as [->|Hn]; [split; intros; lia|].
  split.
  - intros H.
    pose proof (Nat.Div0.mul_div_le (100 * d) n) as Hmul.
    rewrite H in Hmul. lia.
  - intros ->. apply Nat.div_mul. exact Hn.
Qed.

Section MoreScan.

Variable import_module : string -> ImportResult.
Variable get_mod_name : string -> string -> string.
Variable normpath : string -> string.
Variable fs : string -> fsnode.

(** X5.  The score of a module scan, and of a tree scan, is 100 exactly
    when every counted member has a doctest: truncation never rounds an
    incomplete coverage up to 100. *)
Theorem score_100_iff_all_doctested :
  (forall module_path verbose no_color d n,
     snd (coverage import_module module_path verbose no_color) = Ok (d, n) ->
     (score_of d n = 100 <-> d = n)) /\
  (forall sympy_top file node verbose no_color exact d n,
     snd (go import_module get_mod_name sympy_top file node
            verbose no_color exact) = Ok (d, n) ->
     (score_of d n = 100 <-> d = n)).
Proof.
  split.
  - intros module_path verbose no_color d n H.
    apply score_of_full. apply (coverage_counts _ _ _ _ _ _ H).
  - intros sympy_top file node verbose no_color exact d n H.
    apply score_of_full. apply (go_counts _ _ _ _ _ _ _ _ _ _ H).
Qed.








Lemma main_loop_raise (sympy_top : string) (verbose no_color : bool)
    (files : list string) (e : exn) :
  snd (main_loop import_module get_mod_name normpath fs sympy_top
         verbose no_color files) = Raise e ->
  exists file,
    In file files /\
    snd (go import_module get_mod_name sympy_top (normpath file)
           (fs (normpath file)) verbose no_color true) = Raise e.
Proof.
  induction files as [|file files IH]; [discriminate|].
  cbn [main_loop]. rewrite snd_bind, main_file_result.
  destruct (snd (go import_module get_mod_name sympy_top (normpath file)
                   (fs (normpath file)) verbose no_color true))
    as [r|e'] eqn:Hr; cbn [rbind].
  - intros H. destruct (IH H) as [f [Hin Hf]].
    exists f. split; [right; exact Hin | exact Hf].
  - intros H; injection H as ->.
    exists file. split; [left; reflexivity | exact Hr].
Qed.

(** X8.  Where the exit status of a run comes from, once the options
    are parsed.  It is 0 when the main loop ends normally.  Otherwise
    the scan of one of the targets was cut short, and the status is 1
    for an exception that is not [SystemExit] and for the [sys.exit(1)]
    of the scan on something missing; any other status is the one with
    which the import of one of the scanned files called [sys.exit]. *)
Theorem exit_status_origin (sympy_top : string) (verbose no_color : bool)
    (args : list string) :
  let r := snd (main import_module get_mod_name normpath fs sympy_top
                  verbose no_color args) in
  (r = Ok tt /\ exit_code r = 0%Z) \/
  (exists file e,
     In file (default_args sympy_top args) /\
     snd (go import_module get_mod_name sympy_top (normpath file)
            (fs (normpath file)) verbose no_color true) = Raise e /\
     r = Raise e /\
     (((forall code, e <> SystemExit code) /\ exit_code r = 1%Z) \/
      (e = SystemExit 1 /\ exit_code r = 1%Z /\
       (listed_exist (fs (normpath file)) = false \/
        (fs (normpath file) = Missing /\
         filtered_out (normpath file) true = false))) \/
      (exists f code,
         e = SystemExit code /\ exit_code r = code /\
         In f (scanned_files (normpath file) (fs (normpath file)) true) /\
         import_module (get_mod_name f sympy_top) = ImportExit code))).
Proof.
  cbv zeta. unfold main.
  destruct (snd (main_loop import_module get_mod_name normpath fs sympy_top
                   verbose no_color (default_args sympy_top args)))
    as [[]|e] eqn:Hrun.
  - left. split; reflexivity.
  - right. destruct (main_loop_raise _ _ _ _ _ Hrun) as [file [Hin Hgo]].
    exists file, e. split; [exact Hin|]. split; [exact Hgo|].
    split; [reflexivity|].
    destruct e as [| | | |code];
      try (left; split; [intros code; discriminate | reflexivity]).
    right.
    destruct (go_exit_origin _ _ _ _ _ _ _ _ _ Hgo)
      as [[-> Hmissing] | [f [Hf Himp]]].
    + left. split; [reflexivity|]. split; [reflexivity | exact Hmissing].
    + right. exists f, code. repeat split; assumption.
Qed.

End MoreScan.



(** ** The parameter string, in closed form *)


















(** ** Module names *)

Module PathFacts.

Import Paths.


Lemma rpartition_app c p : fst (rpartition c p) ++ snd (rpartition c p) = p.
Proof.
  induction p as [|a p IH]; [reflexivity|].
  cbn [rpartition]. destruct (rpartition c p) as [[|b h] t]; cbn [fst snd] in *.
  - destruct (Ascii.eqb a c); cbn in *; congruence.
  - cbn in *. congruence.
Qed.

Lemma rpartition_absent c p : occurs c p = false -> rpartition c p = ("", p).
Proof.
  induction p as [|a p IH]; [reflexivity|].
  cbn [occurs rpartition]. intros H. apply orb_false_iff in H.
  destruct H as [Ha Hp].
  rewrite (IH Hp), Ha. reflexivity.
Qed.

Lemma rpartition_last c x t :
  occurs c t = false -> rpartition c (x ++ String c t) = (x ++ String c "", t).
Proof.
  intros Ht. induction x as [|a x IH]; cbn [append rpartition].
  - rewrite (rpartition_absent c t Ht). rewrite Ascii.eqb_refl. reflexivity.
  - rewrite IH. destruct x; reflexivity.
Qed.

Lemma rpartition_head c p a h t :
  rpartition c p = (String a h, t) -> exists x, String a h = x ++ String c "".
Proof.
  revert a h t. induction p as [|b p IH]; intros a h t; [discriminate|].
  cbn [rpartition]. destruct (rpartition c p) as [[|a' h'] t'] eqn:Hr.
  - destruct (Ascii.eqb_spec b c) as [->|Hne]; [|discriminate].
    intros H; injection H as <- <- <-. exists "". reflexivity.
  - intros H; injection H as <- <- <-.
    destruct (IH _ _ _ eq_refl) as [x Hx]. exists (String b x).
    cbn. rewrite <- Hx. reflexivity.
Qed.

Lemma rstrip_sep_snoc x : rstrip_sep (x ++ "/") = rstrip_sep x.
Proof.
  induction x as [|a x IH]; [reflexivity|].
  cbn [append rstrip_sep]. rewrite IH. reflexivity.
Qed.

Lemma rstrip_sep_length x : String.length (rstrip_sep x) <= String.length x.
Proof.
  induction x as [|a x IH]; [cbn; lia|].
  cbn [rstrip_sep].
  destruct (rstrip_sep x); [destruct (Ascii.eqb a "/")|]; cbn in *; lia.
Qed.

Lemma length_append a b :
  String.length (a ++ b) = String.length a + String.length b.
Proof. induction a; cbn; [reflexivity|rewrite IHa; reflexivity]. Qed.


Lemma relative_cons a p : relative (String a p) <-> a <> "/"%char.
Proof.
  unfold relative, PyStr.startswith. cbn [String.prefix].
  destruct (Ascii.ascii_dec "/" a) as [<-|Hne].
  - split; [destruct p; discriminate|].
    intros H; exfalso; apply H; reflexivity.
  - split; [intros _; intros H; apply Hne; symmetry; exact H|].
    intros _; reflexivity.
Qed.

Lemma relative_empty : relative "".
Proof. reflexivity. Qed.

Lemma split_relative h :
  relative h ->
  relative (fst (split h)) /\
  (h <> "" -> String.length (fst (split h)) < String.length h).
Proof.
  intros Hrel. unfold split.
  pose proof (rpartition_app "/" h) as Happ.
  destruct (rpartition "/" h) as [[|a hd] tl] eqn:Hr; cbn [fst snd] in *.
  - cbn. split; [reflexivity|]. subst h.
    intros Hne. destruct tl; [exfalso; apply Hne; reflexivity | cbn; lia].
  - destruct (rpartition_head _ _ _ _ _ Hr) as [x Hx].
    assert (Ha : a <> "/"%char).
    { subst h. cbn in Hrel. apply relative_cons in Hrel. exact Hrel. }
    assert (Hns : String.eqb (String a hd)
                    (PyStr.repeat "/" (String.length (String a hd)))
                  = false).
    { cbn. apply Ascii.eqb_neq in Ha. rewrite Ha. reflexivity. }
    rewrite Hns. cbn [String.eqb negb andb].
    rewrite Hx, rstrip_sep_snoc.
    assert (Hlen : String.length (rstrip_sep x) < String.length (String a hd)).
    { rewrite Hx, length_append. pose proof (rstrip_sep_length x). cbn. lia. }
    assert (Hh : String.length h
                 = String.length (String a hd) + String.length tl).
    { rewrite <- Happ, length_append. reflexivity. }
    split.
    + destruct x as [|b x]; [reflexivity|].
      cbn in Hx. injection Hx as <- _.
      cbn [rstrip_sep].
      destruct (rstrip_sep x);
        [rewrite (proj2 (Ascii.eqb_neq a "/") Ha)|];
        apply relative_cons; exact Ha.
    + intros _. lia.
Qed.

Lemma drop_last_snoc x a : drop_last (x ++ String a "") = x.
Proof.
  induction x as [|b x IH]; [reflexivity|].
  cbn [append drop_last]. rewrite IH.
  destruct x; reflexivity.
Qed.

Lemma append_assoc (a b c : string) : (a ++ b) ++ c = a ++ b ++ c.
Proof. induction a; cbn; [reflexivity | rewrite IHa; reflexivity]. Qed.

Lemma append_nil_r (a : string) : a ++ "" = a.
Proof. induction a; cbn; [reflexivity | rewrite IHa; reflexivity]. Qed.

(** [os.path.splitext] gives two parts of its argument. *)
Lemma splitext_app p : fst (splitext p) ++ snd (splitext p) = p.
Proof.
  unfold splitext.
  pose proof (rpartition_app "." p) as Happ.
  destruct (rpartition "." p) as [[|a h] t] eqn:Hr; cbn [fst snd] in *.
  - apply append_nil_r.
  - destruct (occurs "/" t); [apply append_nil_r|].
    destruct (all_dots (snd (rpartition "/" (drop_last (String a h)))));
      [apply append_nil_r|].
    cbn [fst snd]. destruct (rpartition_head _ _ _ _ _ Hr) as [x Hx].
    rewrite Hx, drop_last_snoc. rewrite <- Happ, Hx.
    rewrite append_assoc. reflexivity.
Qed.

Lemma relative_prefix r e : relative (r ++ e) -> relative r.
Proof.
  destruct r as [|a r]; [intros _; reflexivity|].
  cbn [append]. intros H. apply relative_cons in H.
  apply relative_cons. exact H.
Qed.

Lemma mod_name_loop_done fuel fm : mod_name_loop fuel "" "" fm = Some fm.
Proof. destruct fuel; reflexivity. Qed.

Lemma mod_name_loop_terminates fuel :
  forall h t fm,
    relative h ->
    (h = "" /\ t = "") \/ String.length h < fuel ->
    exists r, mod_name_loop fuel h t fm = Some r.
Proof.
  induction fuel as [|fuel IH]; intros h t fm Hrel Hlen.
  - destruct Hlen as [[-> ->]|Hlt]; [|lia]. exists fm; reflexivity.
  - cbn [mod_name_loop].
    destruct (negb (String.eqb h "") || negb (String.eqb t ""));
      [|exists fm; reflexivity].
    destruct (split_relative h Hrel) as [Hrel' Hlt].
    destruct (split h) as [h' t'] eqn:Hs. cbn [fst snd] in *.
    apply IH; [exact Hrel'|].
    destruct (String.eqb_spec h "") as [->|Hne].
    + cbn in Hs. injection Hs as <- <-. left; split; reflexivity.
    + right. specialize (Hlt Hne). destruct Hlen as [[-> _]|Hl];
        [exfalso; apply Hne; reflexivity | lia].
Qed.

Lemma mod_name_loop_more fuel :
  forall h t fm r k,
    mod_name_loop fuel h t fm = Some r ->
    mod_name_loop (fuel + k) h t fm = Some r.
Proof.
  induction fuel as [|fuel IH]; intros h t fm r k.
  - cbn [mod_name_loop].
    destruct (negb (String.eqb h "") || negb (String.eqb t "")) eqn:Hc;
      [discriminate|].
    intros H. destruct (0 + k); cbn [mod_name_loop]; rewrite Hc; exact H.
  - cbn [mod_name_loop Nat.add].
    destruct (negb (String.eqb h "") || negb (String.eqb t "")); [|trivial].
    destruct (split h) as [h' t']. apply IH.
Qed.

Section Termination.
Variable relpath : string -> string -> string.

(** X9.  On a relative path, which is what [os.path.relpath] returns,
    the loop of [get_mod_name] ends: as many rounds as the path has
    characters are enough, and more rounds give the same name. *)
Theorem get_mod_name_terminates (path base : string) :
  relative (relpath path base) ->
  exists m,
    forall fuel,
      String.length (relpath path base) <= fuel ->
      get_mod_name relpath fuel path base = Some m.
Proof.
  intros Hrel. unfold get_mod_name.
  pose proof (splitext_app (relpath path base)) as Happ.
  destruct (splitext (relpath path base)) as [root ext]. cbn [fst snd] in Happ.
  assert (Hroot : relative root)
    by (apply (relative_prefix root ext); rewrite Happ; exact Hrel).
  assert (Hlen : String.length root <= String.length (relpath path base))
    by (rewrite <- Happ, length_append; lia).
  destruct (split_relative root Hroot) as [Hrel' Hlt].
  destruct (split root) as [h t] eqn:Hs. cbn [fst snd] in *.
  destruct (mod_name_loop_terminates (String.length root) h t "" Hrel')
    as [r Hr].
  { destruct (String.eqb_spec root "") as [->|Hne].
    - cbn in Hs. injection Hs as <- <-. left; split; reflexivity.
    - right. apply Hlt. exact Hne. }
  exists (drop_last r). intros fuel Hfuel.
  replace fuel with (String.length root + (fuel - String.length root)) by lia.
  rewrite (mod_name_loop_more _ _ _ _ _ _ Hr). reflexivity.
Qed.
End Termination.



Lemma occurs_app c a b : occurs c (a ++ b) = occurs c a || occurs c b.
Proof.
  induction a as [|x a IH]; [reflexivity|].
  cbn [append occurs]. rewrite IH, orb_assoc. reflexivity.
Qed.

Lemma join_snoc sep (l : list string) x :
  l <> [] -> PyStr.join sep (l ++ [x]) = PyStr.join sep l ++ sep ++ x.
Proof.
  induction l as [|a l IH]; [congruence|]. intros _.
  destruct l as [|b l]; [reflexivity|].
  change ((a :: b :: l) ++ [x])%list with (a :: ((b :: l) ++ [x]))%list.
  change (PyStr.join sep (a :: ((b :: l) ++ [x])%list))
    with (a ++ sep ++ PyStr.join sep ((b :: l) ++ [x])).
  rewrite IH by discriminate.
  change (PyStr.join sep (a :: b :: l))
    with (a ++ sep ++ PyStr.join sep (b :: l)).
  rewrite !append_assoc. reflexivity.
Qed.

Lemma join_relative (cs : list string) :
  Forall plain cs -> relative (PyStr.join "/" cs).
Proof.
  intros H. destruct H as [|c cs [Hne [Hs _]] _]; [reflexivity|].
  assert (Hc : relative c).
  { destruct c as [|a c]; [reflexivity|]. apply relative_cons.
    cbn [occurs] in Hs. apply orb_false_iff in Hs. destruct Hs as [Ha _].
    apply Ascii.eqb_neq. exact Ha. }
  destruct cs as [|c' cs]; [exact Hc|].
  change (PyStr.join "/" (c :: c' :: cs))
    with (c ++ "/" ++ PyStr.join "/" (c' :: cs)).
  destruct c as [|a c]; [exfalso; apply Hne; reflexivity|].
  cbn [append]. apply relative_cons. apply relative_cons in Hc. exact Hc.
Qed.

Lemma rstrip_sep_plain_end x a :
  a <> "/"%char -> rstrip_sep (x ++ String a "") = x ++ String a "".
Proof.
  intros Ha. induction x as [|b x IH]; cbn [append rstrip_sep].
  - rewrite (proj2 (Ascii.eqb_neq a "/") Ha). reflexivity.
  - rewrite IH. destruct x; reflexivity.
Qed.

Lemma plain_last c :
  plain c -> exists x a, c = x ++ String a "" /\ a <> "/"%char.
Proof.
  intros [Hne [Hs _]].
  induction c as [|b c IH]; [exfalso; apply Hne; reflexivity|].
  cbn [occurs] in Hs. apply orb_false_iff in Hs. destruct Hs as [Hb Hc].
  destruct c as [|b' c].
  - exists "", b. split; [reflexivity|]. apply Ascii.eqb_neq. exact Hb.
  - destruct IH as [x [a [Hx Ha]]]; [discriminate | exact Hc|].
    exists (String b x), a. split; [cbn; rewrite <- Hx; reflexivity | exact Ha].
Qed.

Lemma join_last (cs : list string) c :
  Forall plain (cs ++ [c]) ->
  exists x a, PyStr.join "/" (cs ++ [c]) = x ++ String a "" /\ a <> "/"%char.
Proof.
  intros H. apply Forall_app in H. destruct H as [_ Hc].
  inversion Hc as [|? ? Hp _]; subst.
  destruct (plain_last c Hp) as [x [a [-> Ha]]].
  destruct cs as [|c0 cs].
  - exists x, a. split; [reflexivity | exact Ha].
  - rewrite join_snoc by discriminate.
    exists (PyStr.join "/" (c0 :: cs) ++ "/" ++ x), a.
    split; [rewrite !append_assoc; reflexivity | exact Ha].
Qed.

Lemma split_join (cs : list string) c :
  Forall plain (cs ++ [c]) ->
  split (PyStr.join "/" (cs ++ [c])) = (PyStr.join "/" cs, c).
Proof.
  intros H. pose proof H as H0. apply Forall_app in H. destruct H as [Hcs Hc].
  inversion Hc as [|? ? [Hne [Hs Hd]] _]; subst.
  unfold split.
  destruct cs as [|c0 cs] using rev_ind.
  - cbn [app PyStr.join]. rewrite (rpartition_absent "/" c Hs). reflexivity.
  - clear IHcs. rewrite join_snoc by (destruct cs; discriminate).
    change ("/" ++ c) with (String "/" c). rewrite rpartition_last by exact Hs.
    destruct (join_last cs c0 Hcs) as [x [a [Hx Ha]]].
    pose proof (join_relative _ Hcs) as Hrel.
    rewrite Hx in *.
    assert (Hnz : String.eqb ((x ++ String a "") ++ "/") "" = false).
    { destruct x; reflexivity. }
    assert (Hns : String.eqb ((x ++ String a "") ++ "/")
                    (PyStr.repeat "/"
                       (String.length ((x ++ String a "") ++ "/")))
                  = false).
    { destruct x as [|b x].
      - cbn. rewrite (proj2 (Ascii.eqb_neq a "/") Ha). reflexivity.
      - cbn [append] in Hrel |- *. apply relative_cons in Hrel.
        cbn. rewrite (proj2 (Ascii.eqb_neq b "/") Hrel). reflexivity. }
    rewrite Hnz, Hns. cbn [negb andb].
    rewrite rstrip_sep_snoc, rstrip_sep_plain_end by exact Ha. reflexivity.
Qed.

Lemma dotted_loop (cs : list string) :
  forall c fm fuel,
    Forall plain (cs ++ [c]) ->
    length cs < fuel ->
    mod_name_loop fuel (PyStr.join "/" cs) c fm =
    Some (PyStr.join "." (cs ++ [c]) ++ "." ++ fm).
Proof.
  induction cs as [|c' cs IH] using rev_ind; intros c fm fuel Hp Hf.
  - destruct fuel as [|fuel]; [cbn in Hf; lia|].
    inversion Hp as [|? ? [Hne _] _]; subst.
    cbn [app PyStr.join mod_name_loop].
    destruct (String.eqb_spec c "") as [->|_];
      [exfalso; apply Hne; reflexivity|].
    cbn. rewrite mod_name_loop_done. reflexivity.
  - destruct fuel as [|fuel]; [lia|].
    pose proof Hp as Hp0. apply Forall_app in Hp. destruct Hp as [Hcs Hc].
    inversion Hc as [|? ? [Hne _] _]; subst.
    cbn [mod_name_loop].
    destruct (String.eqb_spec c "") as [->|_];
      [exfalso; apply Hne; reflexivity|].
    rewrite orb_true_r. cbn [negb].
    rewrite (split_join cs c' Hcs).
    rewrite IH; [|exact Hcs|rewrite length_app in Hf; cbn in Hf; lia].
    rewrite (join_snoc "." (cs ++ [c']) c) by (destruct cs; discriminate).
    rewrite !append_assoc. reflexivity.
Qed.

Lemma join_lacks (c : ascii) (sep : string) (cs : list string) :
  occurs c sep = false ->
  Forall (fun s => occurs c s = false) cs ->
  occurs c (PyStr.join sep cs) = false.
Proof.
  intros Hsep H. induction H as [|s cs Hs _ IH]; [reflexivity|].
  destruct cs as [|s' cs]; [exact Hs|].
  change (PyStr.join sep (s :: s' :: cs))
    with (s ++ sep ++ PyStr.join sep (s' :: cs)).
  rewrite !occurs_app, Hs, Hsep, IH. reflexivity.
Qed.

Lemma plain_not_dots c : plain c -> all_dots c = false.
Proof.
  intros [Hne [_ Hd]]. destruct c as [|a c]; [exfalso; apply Hne; reflexivity|].
  cbn [occurs] in Hd. apply orb_false_iff in Hd. destruct Hd as [Ha _].
  cbn [all_dots]. rewrite Ha. reflexivity.
Qed.

Lemma rpartition_join_snd (cs : list string) c :
  Forall plain (cs ++ [c]) ->
  snd (rpartition "/" (PyStr.join "/" (cs ++ [c]))) = c.
Proof.
  intros H. apply Forall_app in H. destruct H as [_ Hc].
  inversion Hc as [|? ? [_ [Hs _]] _]; subst.
  destruct cs as [|c0 cs].
  - cbn [app PyStr.join]. rewrite (rpartition_absent "/" c Hs). reflexivity.
  - rewrite join_snoc by discriminate.
    change ("/" ++ c) with (String "/" c). rewrite rpartition_last by exact Hs.
    reflexivity.
Qed.


Lemma splitext_join (cs : list string) c ext :
  Forall plain (cs ++ [c]) -> extension ext ->
  splitext (PyStr.join "/" (cs ++ [c]) ++ ext) =
  (PyStr.join "/" (cs ++ [c]), ext).
Proof.
  intros Hp [->|[e [-> [Hd Hs]]]]; unfold splitext.
  - rewrite append_nil_r. rewrite rpartition_absent; [reflexivity|].
    apply join_lacks; [reflexivity|].
    apply (Forall_impl _ (fun s (H : plain s) => proj2 (proj2 H))). exact Hp.
  - rewrite rpartition_last by exact Hd. rewrite Hs.
    rewrite drop_last_snoc, rpartition_join_snd by exact Hp.
    assert (Hc : plain c).
    { apply Forall_app in Hp. destruct Hp as [_ Hc]. inversion Hc; assumption. }
    rewrite (plain_not_dots c Hc).
    destruct (PyStr.join "/" (cs ++ [c])); reflexivity.
Qed.

Section Dotted.
Variable relpath : string -> string -> string.

(** X10.  For a file or directory whose path relative to the base is
    [c1/c2/.../cn] followed by nothing or by one extension, the names
    [ci] having neither [/] nor dot, [get_mod_name] returns
    [c1.c2. ... .cn]. *)
Theorem get_mod_name_dotted (path base : string) (comps : list string)
    (ext : string) (fuel : nat) :
  comps <> [] -> Forall plain comps -> extension ext ->
  relpath path base = PyStr.join "/" comps ++ ext ->
  length comps <= fuel ->
  get_mod_name relpath fuel path base = Some (PyStr.join "." comps).
Proof.
  intros Hne Hp Hext Hrel Hfuel.
  destruct (exists_last Hne) as [cs [c ->]].
  unfold get_mod_name. rewrite Hrel, (splitext_join cs c ext Hp Hext).
  rewrite (split_join cs c Hp).
  rewrite (dotted_loop cs c "" fuel Hp)
    by (rewrite length_app in Hfuel; cbn in Hfuel; lia).
  change ("." ++ "") with (String "." ""). rewrite drop_last_snoc. reflexivity.
Qed.
End Dotted.

End PathFacts.

Lemma get_mod_name_terminates_witness :
  exists m,
    forall fuel,
      String.length "sympy/core/basic.py" <= fuel ->
      Paths.get_mod_name sample_relpath fuel "sympy/core/basic.py" "" =
      Some m.
Proof.
  exact (PathFacts.get_mod_name_terminates sample_relpath
           "sympy/core/basic.py" "" eq_refl).
Defined.

Lemma get_mod_name_dotted_witness :
  Paths.get_mod_name sample_relpath 3 "sympy/core/basic.py" "" =
  Some "sympy.core.basic".
Proof.
  refine (PathFacts.get_mod_name_dotted sample_relpath
            "sympy/core/basic.py" "" ["sympy"; "core"; "basic"] ".py" 3
            _ _ _ eq_refl _).
  - discriminate.
  - repeat constructor; discriminate.
  - right. exists "py". repeat split.
  - simpl; lia.
Defined.

(** ** The verbose report *)

Lemma print_labels_In (title : string) (l : list label) (x : label) :
  In x l -> In ("  * " ++ label_string x) (print_labels title l).
Proof.
  intros Hin. unfold print_labels. destruct l as [|y l]; [contradiction|].
  apply in_or_app; right.
  apply (in_map (fun md => "  * " ++ label_string md)). exact Hin.
Qed.

Lemma print_category_In (count : nat) (none_found : string)
    (l_md l_mdt l_idt : list label) (x : label) :
  count <> 0 ->
  In x (l_md ++ l_mdt ++ l_idt) ->
  In ("  * " ++ label_string x)
     (print_category count none_found l_md l_mdt l_idt).
Proof.
  intros Hc Hin. unfold print_category.
  destruct (Nat.eqb_spec count 0) as [H0|_]; [contradiction|].
  apply in_app_or in Hin. destruct Hin as [Hin|Hin].
  - apply in_or_app; left. apply print_labels_In. exact Hin.
  - apply in_or_app; right. apply in_app_or in Hin.
    destruct Hin as [Hin|Hin].
    + apply in_or_app; left. apply print_labels_In. exact Hin.
    + apply in_or_app; right. destruct l_idt as [|y l]; [contradiction|].
      apply in_or_app; left. apply print_labels_In. exact Hin.
Qed.

Lemma three_lists_count (L : Lists) (x : label) :
  In x (md L ++ mdt L ++ idt L) -> reported_count L <> 0.
Proof.
  unfold reported_count. intros Hin.
  apply in_app_or in Hin. destruct Hin as [Hin|Hin];
    [destruct (md L); [contradiction | cbn; lia]|].
  apply in_app_or in Hin. destruct Hin as [Hin|Hin];
    [destruct (mdt L); [contradiction | cbn; lia]|].
  destruct (idt L); [contradiction | cbn; lia].
Qed.

Lemma three_lists_sorted (L : Lists) (x : label) :
  In x (md L ++ mdt L ++ idt L) ->
  In x (sorted (md L) ++ sorted (mdt L) ++ sorted (idt L)).
Proof.
  intros Hin. apply in_app_or in Hin. destruct Hin as [Hin|Hin];
    [apply in_or_app; left;
     apply (Permutation_in _ (sorted_perm _) Hin)|].
  apply in_or_app; right. apply in_app_or in Hin. destruct Hin as [Hin|Hin].
  - apply in_or_app; left. apply (Permutation_in _ (sorted_perm _) Hin).
  - apply in_or_app; right. apply (Permutation_in _ (sorted_perm _) Hin).
Qed.

Section Report.

Variable import_module : string -> ImportResult.

(** X11.  In verbose mode [coverage] prints a line ["  * LINE n: name"]
    for every label collected in a report list, of classes or of
    functions: a list with a label never meets a count of zero, which
    would hide it. *)
Theorem verbose_report_complete (module_path : string) (m : pymodule)
    (st : CovState) (no_color : bool) (x : label) :
  import_module module_path = Imported m ->
  scan_members module_path m = Ok st ->
  In x (md (c_lists st) ++ mdt (c_lists st) ++ idt (c_lists st)) \/
  In x (md (f_lists st) ++ mdt (f_lists st) ++ idt (f_lists st)) ->
  In ("  * " ++ label_string x)
     (fst (coverage import_module module_path true no_color)).
Proof.
  intros Himp Hscan Hin. unfold coverage. rewrite Himp, Hscan. cbn [fst].
  destruct (scan_members_accounted _ _ _ Hscan) as [Hc [_ [Hf _]]].
  unfold print_coverage. cbv zeta.
  apply in_or_app; right. apply in_or_app; left.
  apply in_or_app; right.
  destruct Hin as [Hin|Hin].
  - apply in_or_app; left. apply print_category_In.
    + pose proof (three_lists_count _ _ Hin). lia.
    + apply three_lists_sorted. exact Hin.
  - apply in_or_app; right. apply in_or_app; right.
    apply print_category_In.
    + pose proof (three_lists_count _ _ Hin). lia.
    + apply three_lists_sorted. exact Hin.
Qed.

End Report.

Lemma verbose_report_complete_witness :
  In "  * LINE 12: Foo" (fst (coverage sample_import "pkg.mod" true true)).
Proof.
  refine (verbose_report_complete sample_import "pkg.mod" sample_module _
            true (Build_label 12 "Foo") eq_refl eq_refl _).
  left. left. reflexivity.
Defined.

(** ** The tree scan as a sum over files *)



Section TreeSum.

Variable import_module : string -> ImportResult.
Variable get_mod_name : string -> string -> string.


End TreeSum.


(** ** Output without colour *)

Lemma esc_free_app (a b : string) :
  esc_free a -> esc_free b -> esc_free (a ++ b).
Proof.
  unfold esc_free. intros Ha Hb.
  rewrite PathFacts.occurs_app, Ha, Hb. reflexivity.
Qed.

Lemma esc_free_dec (n : nat) : esc_free (PyStr.dec n).
Proof.
  unfold PyStr.dec, esc_free. generalize (Nat.to_uint n) as u.
  induction u; cbn [NilEmpty.string_of_uint Paths.occurs];
    [reflexivity | ..]; exact IHu.
Qed.

Lemma esc_free_repeat (u : string) (n : nat) :
  esc_free u -> esc_free (PyStr.repeat u n).
Proof.
  intros Hu. induction n as [|n IH]; [reflexivity|].
  cbn [PyStr.repeat]. apply esc_free_app; assumption.
Qed.

Lemma esc_free_label (x : label) :
  esc_free (full_name x) -> esc_free ("  * " ++ label_string x).
Proof.
  intros Hx. unfold label_string.
  repeat apply esc_free_app; try reflexivity; [apply esc_free_dec | exact Hx].
Qed.

Lemma esc_free_header (name : string) (underline : option string) :
  esc_free name ->
  (forall u, underline = Some u -> esc_free u) ->
  Forall esc_free (print_header name underline).
Proof.
  intros Hn Hu. unfold print_header.
  apply Forall_app; split; [repeat constructor; exact Hn|].
  destruct underline as [u|]; cbn [truthy_name]; [|constructor].
  destruct (String.eqb u ""); [constructor|].
  repeat constructor. apply esc_free_repeat. apply Hu. reflexivity.
Qed.

Lemma esc_free_labels (title : string) (l : list label) :
  esc_free title ->
  Forall (fun x => esc_free (full_name x)) l ->
  Forall esc_free (print_labels title l).
Proof.
  intros Ht Hl. unfold print_labels. destruct l as [|y l]; [constructor|].
  apply Forall_app; split.
  - apply esc_free_header; [exact Ht|].
    intros u H; injection H as <-; reflexivity.
  - apply Forall_forall. intros line Hin. apply in_map_iff in Hin.
    destruct Hin as [x [<- Hx]]. apply esc_free_label.
    rewrite Forall_forall in Hl. apply Hl. exact Hx.
Qed.

Lemma esc_free_category (count : nat) (none_found : string)
    (l_md l_mdt l_idt : list label) :
  esc_free none_found ->
  Forall (fun x => esc_free (full_name x)) (l_md ++ l_mdt ++ l_idt) ->
  Forall esc_free (print_category count none_found l_md l_mdt l_idt).
Proof.
  intros Hn Hl. unfold print_category.
  apply Forall_app in Hl. destruct Hl as [Hmd Hl].
  apply Forall_app in Hl. destruct Hl as [Hmdt Hidt].
  destruct (Nat.eqb count 0);
    [apply esc_free_header; [exact Hn | discriminate]|].
  apply Forall_app; split; [apply esc_free_labels; [reflexivity|exact Hmd]|].
  apply Forall_app; split; [apply esc_free_labels; [reflexivity|exact Hmdt]|].
  destruct l_idt as [|y l]; [constructor|].
  apply Forall_app; split; [apply esc_free_labels; [reflexivity|exact Hidt]|].
  repeat constructor.
Qed.

Lemma esc_free_plain_score (score total_doctests total_members : nat) :
  esc_free (score_string score total_doctests total_members true).
Proof.
  unfold score_string.
  repeat apply esc_free_app; try reflexivity; apply esc_free_dec.
Qed.

(** X13.  With [no_color], no line that [print_coverage] prints has an
    escape character, in either mode, when the module path and the
    names in the labels have none. *)
Theorem no_color_no_escape (module_path : string)
    (c : nat) (c_md c_mdt c_idt : list label)
    (f : nat) (f_md f_mdt f_idt : list label)
    (score total_doctests total_members : nat) (verbose : bool) :
  esc_free module_path ->
  Forall (fun x => esc_free (full_name x)) (c_md ++ c_mdt ++ c_idt) ->
  Forall (fun x => esc_free (full_name x)) (f_md ++ f_mdt ++ f_idt) ->
  Forall esc_free
    (print_coverage module_path c c_md c_mdt c_idt f f_md f_mdt f_idt
       score total_doctests total_members verbose true).
Proof.
  intros Hm Hc Hf. unfold print_coverage. cbv zeta.
  pose proof (esc_free_plain_score score total_doctests total_members)
    as Hs.
  assert (Hrule : esc_free (PyStr.repeat "-" 70)) by reflexivity.
  destruct verbose.
  - apply Forall_app; split.
    + apply Forall_cons;
        [apply esc_free_app; [reflexivity | exact Hrule]|].
      apply Forall_cons; [exact Hm|].
      apply Forall_cons; [exact Hrule | apply Forall_nil].
    + apply Forall_app; split.
      * apply Forall_app; split;
          [apply esc_free_header; [reflexivity|];
           intros u H; injection H as <-; reflexivity|].
        apply Forall_app; split;
          [apply esc_free_category; [reflexivity | exact Hc]|].
        apply Forall_app; split;
          [apply esc_free_header; [reflexivity|];
           intros u H; injection H as <-; reflexivity|].
        apply esc_free_category; [reflexivity | exact Hf].
      * apply Forall_cons;
          [apply esc_free_app; [reflexivity | exact Hrule]|].
        apply Forall_cons;
          [apply esc_free_app; [reflexivity | exact Hs]|].
        apply Forall_cons; [exact Hrule | apply Forall_nil].
  - cbn [app]. apply Forall_cons; [|apply Forall_nil].
    apply esc_free_app; [exact Hm|].
    apply esc_free_app; [reflexivity | exact Hs].
Qed.

Lemma no_color_no_escape_witness :
  Forall esc_free
    (print_coverage "pkg.mod" 1 [Build_label 12 "Foo"] [] [] 1 [] [] []
       50 1 2 true true).
Proof.
  refine (no_color_no_escape "pkg.mod" 1 [Build_label 12 "Foo"] [] [] 1
            [] [] [] 50 1 2 true eq_refl _ _).
  - repeat constructor.
  - constructor.
Defined.

Lemma score_100_iff_all_doctested_witness :
  score_of 1 2 = 100 <-> 1 = 2.
Proof.
  refine (proj1 (score_100_iff_all_doctested sample_import
                   sample_get_mod_name) "pkg.mod" false true 1 2 _).
  reflexivity.
Defined.
